(** * twixdbot: the Telegram front end for Twilio phone numbers (src/main.py)

    A shallow embedding of the credential store, the client resolver, the
    provider operations and the command and button dispatch of
    [src/main.py], followed by the properties stated about them.

    Conventions of the embedding.
    - A Python [str] is the list of its code points ([pystr]); the literals
      of the source are written [u "..."], the UTF-8 decoding of the text
      between the quotes, and [nl] is the line feed the source writes
      backslash-n.
    - The module-level dict [user_twilio_credentials], the calls made to
      Twilio and the messages handed to Telegram are the three fields of
      [World]; every function of the source that touches one of them is a
      computation in the monad [M], which also carries raised exceptions.
    - Twilio is an external service: its answers are given by a [Provider],
      a family of functions from the history of the calls made so far and
      the arguments of the present call to an [Answer].
    - Telegram is an external transport: every send is recorded and
      returns normally.  Logging is not modelled.
    - The builtins [int] and [str.upper] follow the interpreter, with the
      tables of its Unicode database; of the Twilio library the model
      keeps which exception each kind of call raises ([paged]).
    - [src/bot.py] holds an earlier copy of [get_twilio_client] and of
      [configure_twilio], with the same control flow and shorter texts; the
      embedding follows [src/main.py]. *)

From Stdlib Require Import ZArith NArith String Ascii List Lia DecimalString.
From stdpp Require Import base option list gmap.

Local Open Scope Z_scope.

(** ** Python text *)

Abbreviation pystr := (list N).

(** UTF-8 decoding of a source literal: [need] continuation bytes are still
    expected for the code point accumulated in [acc]. *)
Fixpoint utf8_decode (s : string) (need : nat) (acc : N) : pystr :=
  match s with
  | EmptyString => []
  | String c s' =>
      let b := N_of_ascii c in
      match need with
      | O =>
          if (b <? 128)%N then b :: utf8_decode s' 0 0%N
          else if (b <? 224)%N then utf8_decode s' 1 (b mod 32)%N
          else if (b <? 240)%N then utf8_decode s' 2 (b mod 16)%N
          else utf8_decode s' 3 (b mod 8)%N
      | S O => (acc * 64 + b mod 64)%N :: utf8_decode s' 0 0%N
      | S n => utf8_decode s' n (acc * 64 + b mod 64)%N
      end
  end.

Definition u (s : string) : pystr := utf8_decode s 0 0%N.

Definition nl : pystr := [10%N].

(** [s.startswith(p)] *)
Fixpoint startswith (s p : pystr) {struct p} : bool :=
  match p with
  | [] => true
  | a :: p' =>
      match s with
      | [] => false
      | b :: s' => (a =? b)%N && startswith s' p'
      end
  end.

(** [len(s)] *)
Definition len (s : pystr) : Z := Z.of_nat (length s).

(** [s[n:]] for [0 <= n] *)
Definition slice_from (n : Z) (s : pystr) : pystr := drop (Z.to_nat n) s.

(** [a == b] on text *)
Definition str_eqb (a b : pystr) : bool := bool_decide (a = b).

(** Truth value of a [str]: the empty text is false. *)
Definition truthy (s : pystr) : bool :=
  match s with [] => false | _ :: _ => true end.

(** Truth value of a [str | None]. *)
Definition truthy_opt (o : option pystr) : bool :=
  match o with Some s => truthy s | None => false end.

(** [x or d] for [x : str | None] and a text [d]. *)
Definition or_default (o : option pystr) (d : pystr) : pystr :=
  match o with
  | Some s => if truthy s then s else d
  | None => d
  end.

(** [str(n)] for an [int]. *)
Definition str_of_int (n : Z) : pystr :=
  u (NilZero.string_of_int (Z.to_int n)).

(** The letters A-Z and a-z in the other case.  [lower] is [s.lower()] as
    far as [_normalize_search_arg] reads it: no other code point lowers to
    a letter of "none", to "_" or to "-".  [upper] is its converse on the
    ASCII letters; [s.upper()] itself is [str_upper] below. *)
Definition lower_char (c : N) : N :=
  if ((65 <=? c) && (c <=? 90))%N then (c + 32)%N else c.

Definition lower (s : pystr) : pystr := map lower_char s.

Definition upper_char (c : N) : N :=
  if ((97 <=? c) && (c <=? 122))%N then (c - 32)%N else c.

Definition upper (s : pystr) : pystr := map upper_char s.

(** *** [s.upper()]

    The upper case of a text is the upper case of each of its code
    points, by the full case mapping of the Unicode database of the
    interpreter (here Unicode 14.0.0, that of CPython 3.11).  The code
    points that map to one code point are given in runs
    [(first, last, step, offset)]: each [first + k * step] up to [last]
    maps to itself plus [offset]. *)
Definition upper_runs : list (N * N * N * Z) :=
  [
    (97%N, 122%N, 1%N, (-32)); (181%N, 181%N, 1%N, 743);
    (224%N, 246%N, 1%N, (-32)); (248%N, 254%N, 1%N, (-32));
    (255%N, 255%N, 1%N, 121); (257%N, 303%N, 2%N, (-1));
    (305%N, 305%N, 1%N, (-232)); (307%N, 311%N, 2%N, (-1));
    (314%N, 328%N, 2%N, (-1)); (331%N, 375%N, 2%N, (-1));
    (378%N, 382%N, 2%N, (-1)); (383%N, 383%N, 1%N, (-300));
    (384%N, 384%N, 1%N, 195); (387%N, 389%N, 2%N, (-1));
    (392%N, 392%N, 1%N, (-1)); (396%N, 396%N, 1%N, (-1));
    (402%N, 402%N, 1%N, (-1)); (405%N, 405%N, 1%N, 97);
    (409%N, 409%N, 1%N, (-1)); (410%N, 410%N, 1%N, 163);
    (414%N, 414%N, 1%N, 130); (417%N, 421%N, 2%N, (-1));
    (424%N, 424%N, 1%N, (-1)); (429%N, 429%N, 1%N, (-1));
    (432%N, 432%N, 1%N, (-1)); (436%N, 438%N, 2%N, (-1));
    (441%N, 441%N, 1%N, (-1)); (445%N, 445%N, 1%N, (-1));
    (447%N, 447%N, 1%N, 56); (453%N, 453%N, 1%N, (-1));
    (454%N, 454%N, 1%N, (-2)); (456%N, 456%N, 1%N, (-1));
    (457%N, 457%N, 1%N, (-2)); (459%N, 459%N, 1%N, (-1));
    (460%N, 460%N, 1%N, (-2)); (462%N, 476%N, 2%N, (-1));
    (477%N, 477%N, 1%N, (-79)); (479%N, 495%N, 2%N, (-1));
    (498%N, 498%N, 1%N, (-1)); (499%N, 499%N, 1%N, (-2));
    (501%N, 501%N, 1%N, (-1)); (505%N, 543%N, 2%N, (-1));
    (547%N, 563%N, 2%N, (-1)); (572%N, 572%N, 1%N, (-1));
    (575%N, 576%N, 1%N, 10815); (578%N, 578%N, 1%N, (-1));
    (583%N, 591%N, 2%N, (-1)); (592%N, 592%N, 1%N, 10783);
    (593%N, 593%N, 1%N, 10780); (594%N, 594%N, 1%N, 10782);
    (595%N, 595%N, 1%N, (-210)); (596%N, 596%N, 1%N, (-206));
    (598%N, 599%N, 1%N, (-205)); (601%N, 601%N, 1%N, (-202));
    (603%N, 603%N, 1%N, (-203)); (604%N, 604%N, 1%N, 42319);
    (608%N, 608%N, 1%N, (-205)); (609%N, 609%N, 1%N, 42315);
    (611%N, 611%N, 1%N, (-207)); (613%N, 613%N, 1%N, 42280);
    (614%N, 614%N, 1%N, 42308); (616%N, 616%N, 1%N, (-209));
    (617%N, 617%N, 1%N, (-211)); (618%N, 618%N, 1%N, 42308);
    (619%N, 619%N, 1%N, 10743); (620%N, 620%N, 1%N, 42305);
    (623%N, 623%N, 1%N, (-211)); (625%N, 625%N, 1%N, 10749);
    (626%N, 626%N, 1%N, (-213)); (629%N, 629%N, 1%N, (-214));
    (637%N, 637%N, 1%N, 10727); (640%N, 640%N, 1%N, (-218));
    (642%N, 642%N, 1%N, 42307); (643%N, 643%N, 1%N, (-218));
    (647%N, 647%N, 1%N, 42282); (648%N, 648%N, 1%N, (-218));
    (649%N, 649%N, 1%N, (-69)); (650%N, 651%N, 1%N, (-217));
    (652%N, 652%N, 1%N, (-71)); (658%N, 658%N, 1%N, (-219));
    (669%N, 669%N, 1%N, 42261); (670%N, 670%N, 1%N, 42258);
    (837%N, 837%N, 1%N, 84); (881%N, 883%N, 2%N, (-1));
    (887%N, 887%N, 1%N, (-1)); (891%N, 893%N, 1%N, 130);
    (940%N, 940%N, 1%N, (-38)); (941%N, 943%N, 1%N, (-37));
    (945%N, 961%N, 1%N, (-32)); (962%N, 962%N, 1%N, (-31));
    (963%N, 971%N, 1%N, (-32)); (972%N, 972%N, 1%N, (-64));
    (973%N, 974%N, 1%N, (-63)); (976%N, 976%N, 1%N, (-62));
    (977%N, 977%N, 1%N, (-57)); (981%N, 981%N, 1%N, (-47));
    (982%N, 982%N, 1%N, (-54)); (983%N, 983%N, 1%N, (-8));
    (985%N, 1007%N, 2%N, (-1)); (1008%N, 1008%N, 1%N, (-86));
    (1009%N, 1009%N, 1%N, (-80)); (1010%N, 1010%N, 1%N, 7);
    (1011%N, 1011%N, 1%N, (-116)); (1013%N, 1013%N, 1%N, (-96));
    (1016%N, 1016%N, 1%N, (-1)); (1019%N, 1019%N, 1%N, (-1));
    (1072%N, 1103%N, 1%N, (-32)); (1104%N, 1119%N, 1%N, (-80));
    (1121%N, 1153%N, 2%N, (-1)); (1163%N, 1215%N, 2%N, (-1));
    (1218%N, 1230%N, 2%N, (-1)); (1231%N, 1231%N, 1%N, (-15));
    (1233%N, 1327%N, 2%N, (-1)); (1377%N, 1414%N, 1%N, (-48));
    (4304%N, 4346%N, 1%N, 3008); (4349%N, 4351%N, 1%N, 3008);
    (5112%N, 5117%N, 1%N, (-8)); (7296%N, 7296%N, 1%N, (-6254));
    (7297%N, 7297%N, 1%N, (-6253)); (7298%N, 7298%N, 1%N, (-6244));
    (7299%N, 7300%N, 1%N, (-6242)); (7301%N, 7301%N, 1%N, (-6243));
    (7302%N, 7302%N, 1%N, (-6236)); (7303%N, 7303%N, 1%N, (-6181));
    (7304%N, 7304%N, 1%N, 35266); (7545%N, 7545%N, 1%N, 35332);
    (7549%N, 7549%N, 1%N, 3814); (7566%N, 7566%N, 1%N, 35384);
    (7681%N, 7829%N, 2%N, (-1)); (7835%N, 7835%N, 1%N, (-59));
    (7841%N, 7935%N, 2%N, (-1)); (7936%N, 7943%N, 1%N, 8);
    (7952%N, 7957%N, 1%N, 8); (7968%N, 7975%N, 1%N, 8);
    (7984%N, 7991%N, 1%N, 8); (8000%N, 8005%N, 1%N, 8);
    (8017%N, 8023%N, 2%N, 8); (8032%N, 8039%N, 1%N, 8);
    (8048%N, 8049%N, 1%N, 74); (8050%N, 8053%N, 1%N, 86);
    (8054%N, 8055%N, 1%N, 100); (8056%N, 8057%N, 1%N, 128);
    (8058%N, 8059%N, 1%N, 112); (8060%N, 8061%N, 1%N, 126);
    (8112%N, 8113%N, 1%N, 8); (8126%N, 8126%N, 1%N, (-7205));
    (8144%N, 8145%N, 1%N, 8); (8160%N, 8161%N, 1%N, 8);
    (8165%N, 8165%N, 1%N, 7); (8526%N, 8526%N, 1%N, (-28));
    (8560%N, 8575%N, 1%N, (-16)); (8580%N, 8580%N, 1%N, (-1));
    (9424%N, 9449%N, 1%N, (-26)); (11312%N, 11359%N, 1%N, (-48));
    (11361%N, 11361%N, 1%N, (-1)); (11365%N, 11365%N, 1%N, (-10795));
    (11366%N, 11366%N, 1%N, (-10792)); (11368%N, 11372%N, 2%N, (-1));
    (11379%N, 11379%N, 1%N, (-1)); (11382%N, 11382%N, 1%N, (-1));
    (11393%N, 11491%N, 2%N, (-1)); (11500%N, 11502%N, 2%N, (-1));
    (11507%N, 11507%N, 1%N, (-1)); (11520%N, 11557%N, 1%N, (-7264));
    (11559%N, 11559%N, 1%N, (-7264)); (11565%N, 11565%N, 1%N, (-7264));
    (42561%N, 42605%N, 2%N, (-1)); (42625%N, 42651%N, 2%N, (-1));
    (42787%N, 42799%N, 2%N, (-1)); (42803%N, 42863%N, 2%N, (-1));
    (42874%N, 42876%N, 2%N, (-1)); (42879%N, 42887%N, 2%N, (-1));
    (42892%N, 42892%N, 1%N, (-1)); (42897%N, 42899%N, 2%N, (-1));
    (42900%N, 42900%N, 1%N, 48); (42903%N, 42921%N, 2%N, (-1));
    (42933%N, 42947%N, 2%N, (-1)); (42952%N, 42954%N, 2%N, (-1));
    (42961%N, 42961%N, 1%N, (-1)); (42967%N, 42969%N, 2%N, (-1));
    (42998%N, 42998%N, 1%N, (-1)); (43859%N, 43859%N, 1%N, (-928));
    (43888%N, 43967%N, 1%N, (-38864)); (65345%N, 65370%N, 1%N, (-32));
    (66600%N, 66639%N, 1%N, (-40)); (66776%N, 66811%N, 1%N, (-40));
    (66967%N, 67003%N, 2%N, (-39)); (66968%N, 66977%N, 1%N, (-39));
    (66980%N, 66993%N, 1%N, (-39)); (66996%N, 67001%N, 1%N, (-39));
    (67004%N, 67004%N, 1%N, (-39)); (68800%N, 68850%N, 1%N, (-64));
    (71872%N, 71903%N, 1%N, (-32)); (93792%N, 93823%N, 1%N, (-32));
    (125218%N, 125251%N, 1%N, (-34))
  ]%Z.

(** The code points whose upper case is more than one code point. *)
Definition upper_special : list (N * list N) :=
  [
    (223, [83; 83]); (329, [700; 78]); (496, [74; 780]);
    (912, [921; 776; 769]); (944, [933; 776; 769]); (1415, [1333; 1362]);
    (7830, [72; 817]); (7831, [84; 776]); (7832, [87; 778]);
    (7833, [89; 778]); (7834, [65; 702]); (8016, [933; 787]);
    (8018, [933; 787; 768]); (8020, [933; 787; 769]);
    (8022, [933; 787; 834]); (8064, [7944; 921]); (8065, [7945; 921]);
    (8066, [7946; 921]); (8067, [7947; 921]); (8068, [7948; 921]);
    (8069, [7949; 921]); (8070, [7950; 921]); (8071, [7951; 921]);
    (8072, [7944; 921]); (8073, [7945; 921]); (8074, [7946; 921]);
    (8075, [7947; 921]); (8076, [7948; 921]); (8077, [7949; 921]);
    (8078, [7950; 921]); (8079, [7951; 921]); (8080, [7976; 921]);
    (8081, [7977; 921]); (8082, [7978; 921]); (8083, [7979; 921]);
    (8084, [7980; 921]); (8085, [7981; 921]); (8086, [7982; 921]);
    (8087, [7983; 921]); (8088, [7976; 921]); (8089, [7977; 921]);
    (8090, [7978; 921]); (8091, [7979; 921]); (8092, [7980; 921]);
    (8093, [7981; 921]); (8094, [7982; 921]); (8095, [7983; 921]);
    (8096, [8040; 921]); (8097, [8041; 921]); (8098, [8042; 921]);
    (8099, [8043; 921]); (8100, [8044; 921]); (8101, [8045; 921]);
    (8102, [8046; 921]); (8103, [8047; 921]); (8104, [8040; 921]);
    (8105, [8041; 921]); (8106, [8042; 921]); (8107, [8043; 921]);
    (8108, [8044; 921]); (8109, [8045; 921]); (8110, [8046; 921]);
    (8111, [8047; 921]); (8114, [8122; 921]); (8115, [913; 921]);
    (8116, [902; 921]); (8118, [913; 834]); (8119, [913; 834; 921]);
    (8124, [913; 921]); (8130, [8138; 921]); (8131, [919; 921]);
    (8132, [905; 921]); (8134, [919; 834]); (8135, [919; 834; 921]);
    (8140, [919; 921]); (8146, [921; 776; 768]); (8147, [921; 776; 769]);
    (8150, [921; 834]); (8151, [921; 776; 834]); (8162, [933; 776; 768]);
    (8163, [933; 776; 769]); (8164, [929; 787]); (8166, [933; 834]);
    (8167, [933; 776; 834]); (8178, [8186; 921]); (8179, [937; 921]);
    (8180, [911; 921]); (8182, [937; 834]); (8183, [937; 834; 921]);
    (8188, [937; 921]); (64256, [70; 70]); (64257, [70; 73]);
    (64258, [70; 76]); (64259, [70; 70; 73]); (64260, [70; 70; 76]);
    (64261, [83; 84]); (64262, [83; 84]); (64275, [1348; 1350]);
    (64276, [1348; 1333]); (64277, [1348; 1339]); (64278, [1358; 1350]);
    (64279, [1348; 1341])
  ]%N.

Definition in_run (c : N) (r : N * N * N * Z) : bool :=
  let '(first, last, step, _) := r in
  ((first <=? c) && (c <=? last) && ((c - first) mod step =? 0))%N.

Definition str_upper_char (c : N) : pystr :=
  match find (fun e : N * list N => (fst e =? c)%N) upper_special with
  | Some (_, image) => image
  | None =>
      match find (in_run c) upper_runs with
      | Some (_, _, _, offset) => [Z.to_N (Z.of_N c + offset)]
      | None => [c]
      end
  end.

Definition str_upper (s : pystr) : pystr := flat_map str_upper_char s.

(** [sep.join(parts)] *)
Fixpoint join (sep : pystr) (parts : list pystr) : pystr :=
  match parts with
  | [] => []
  | [x] => x
  | x :: rest => x ++ sep ++ join sep rest
  end.

(** *** [int(s)]

    White space around the number is dropped; then come an optional sign
    and decimal digits, with single underscores allowed between digits.
    The digits are the decimal digits of the Unicode database of the
    interpreter (Unicode 14.0.0), each run of ten given by its first code
    point; a text of more than 4300 digits is refused
    ([sys.get_int_max_str_digits()]). *)

Definition decimal_runs : list N :=
  [
    48; 1632; 1776; 1984; 2406; 2534; 2662; 2790; 2918; 3046; 3174; 3302;
    3430; 3558; 3664; 3792; 3872; 4160; 4240; 6112; 6160; 6470; 6608; 6784;
    6800; 6992; 7088; 7232; 7248; 42528; 43216; 43264; 43472; 43504; 43600;
    44016; 65296; 66720; 68912; 69734; 69872; 69942; 70096; 70384; 70736;
    70864; 71248; 71360; 71472; 71904; 72016; 72784; 73040; 73120; 92768;
    92864; 93008; 120782; 120792; 120802; 120812; 120822; 123200; 123632;
    125264; 130032
  ]%N.

Definition digit_of (c : N) : option Z :=
  match find (fun first => ((first <=? c) && (c <? first + 10))%N) decimal_runs with
  | Some first => Some (Z.of_N (c - first))
  | None => None
  end.

(** The white space [int] skips: tab to carriage return, the space, and
    the code points above 126 for which [str.isspace] holds. *)
Definition int_space (c : N) : bool :=
  (((9 <=? c) && (c <=? 13)) || (c =? 32) ||
   existsb (N.eqb c)
     [133; 160; 5760; 8192; 8193; 8194; 8195; 8196; 8197; 8198; 8199; 8200; 8201; 8202; 8232; 8233; 8239; 8287; 12288])%N.

Definition max_str_digits : N := 4300.

(** [after_digit] tells that the previous code point was a digit, so that
    an underscore or white space may come next and the text may end here;
    [count] is the number of digits read. *)
Fixpoint int_digits (s : pystr) (acc : Z) (count : N) (after_digit : bool)
    : option Z :=
  match s with
  | [] => if after_digit && (count <=? max_str_digits)%N then Some acc else None
  | c :: s' =>
      match digit_of c with
      | Some d => int_digits s' (10 * acc + d) (count + 1)%N true
      | None =>
          if ((c =? 95)%N && after_digit)%bool then int_digits s' acc count false
          else if int_space c && after_digit && forallb int_space s'
                  && (count <=? max_str_digits)%N
          then Some acc
          else None
      end
  end.

Fixpoint skip_space (s : pystr) : pystr :=
  match s with
  | c :: s' => if int_space c then skip_space s' else s
  | [] => []
  end.

Definition py_int (s : pystr) : option Z :=
  match skip_space s with
  | 43%N :: s' => int_digits s' 0 0%N false
  | 45%N :: s' => Z.opp <$> int_digits s' 0 0%N false
  | s' => int_digits s' 0 0%N false
  end.

(** ** Data model *)

(** [twilio.rest.Client(sid, token)] *)
Record Client := mkClient { client_sid : pystr; client_token : pystr }.

(** A value of [user_twilio_credentials]: the dict
    [{"sid": ..., "token": ..., "client": ...}].  The source creates such a
    dict in one place only ([configure_twilio]), with both "sid" and
    "token"; the key "client" is present exactly when [client] is [Some]. *)
Record Session := mkSession {
  sid : pystr;
  token : pystr;
  client : option Client
}.

(** [e.details], the value under "details" of the error payload: [None],
    a dict, or another value (a text, a list, a number), of which the
    code reads the truth value only. *)
Inductive Details :=
| NoDetails
| DictDetails (d : list (pystr * pystr))
| OtherDetails (truth : bool).

(** [TwilioRestException]: [e.code], [e.details] and [str(e)]. *)
Record RestError := mkRestError {
  code : Z;
  details : Details;
  text : pystr
}.

Inductive Exn :=
| TwilioRestException (e : RestError)
| OtherException.

(** A number offered by [available_phone_numbers(...).local.list]; the
    attributes are the texts the f-strings of the source render. *)
Record AvailableNumber := mkAvailable {
  a_friendly_name : pystr;
  a_phone_number : pystr;
  a_region : pystr;
  a_locality : pystr
}.

(** A number of [incoming_phone_numbers]. *)
Record IncomingNumber := mkIncoming {
  i_friendly_name : pystr;
  i_phone_number : pystr;
  i_sid : pystr
}.

Record DateTime := mkDateTime {
  year : Z; month : Z; day : Z; hour : Z; minute : Z; second : Z
}.

(** A message of [client.messages.list]. *)
Record Message := mkMessage {
  m_direction : pystr;
  m_status : pystr;
  m_from : pystr;
  m_date_sent : option DateTime;
  m_body : pystr;
  m_sid : pystr
}.

(** The keyword arguments [search_params] of the search. *)
Record SearchParams := mkSearchParams {
  limit : Z;
  area_code : option pystr;
  contains : option pystr;
  in_postal_code : option pystr
}.

(** The calls the source makes to Twilio. *)
Inductive ProviderCall :=
| AccountFetch (c : Client) (account_sid : pystr)
| AvailableLocalList (c : Client) (country : pystr) (params : SearchParams)
| IncomingCreate (c : Client) (phone_number : pystr)
| IncomingList (c : Client) (phone_number : option pystr) (limit : Z)
| IncomingDelete (c : Client) (number_sid : pystr)
| MessagesList (c : Client) (to : pystr) (limit : Z).

Inductive Answer (A : Type) :=
| Ok (a : A)
| Fails (e : Exn).
Arguments Ok {A} a.
Arguments Fails {A} e.

(** The provider: what Twilio answers to a call, given the calls made
    before it. *)
Record Provider := mkProvider {
  on_fetch : list ProviderCall -> Client -> pystr -> Answer unit;
  on_search :
    list ProviderCall -> Client -> pystr -> SearchParams ->
    Answer (list AvailableNumber);
  on_create : list ProviderCall -> Client -> pystr -> Answer IncomingNumber;
  on_list :
    list ProviderCall -> Client -> option pystr -> Z ->
    Answer (list IncomingNumber);
  on_delete : list ProviderCall -> Client -> pystr -> Answer unit;
  on_messages : list ProviderCall -> Client -> pystr -> Z -> Answer (list Message)
}.

(** What a provider operation hands back: a text, or the pair
    [(text, None)]. *)
Inductive PyVal :=
| VStr (s : pystr)
| VTuple (s : pystr).

Definition Button : Type := pystr * pystr.   (* label, callback_data *)
Definition Keyboard : Type := list (list Button).

(** What is handed to Telegram. *)
Inductive Outgoing :=
| ReplyText (v : PyVal) (reply_markup : option Keyboard)
| EditMessageText (v : PyVal)
| AnswerQuery.

Record World := mkWorld {
  store : gmap Z Session;          (* user_twilio_credentials *)
  calls : list ProviderCall;       (* calls made to Twilio, oldest first *)
  sent : list Outgoing             (* messages handed to Telegram *)
}.

(** ** The monad of handlers *)

Inductive Outcome (A : Type) :=
| Done (a : A)
| Raised (e : Exn).
Arguments Done {A} a.
Arguments Raised {A} e.

Definition M (A : Type) : Type := World -> Outcome A * World.

Definition ret {A} (a : A) : M A := fun w => (Done a, w).

Definition bind {A B} (m : M A) (k : A -> M B) : M B :=
  fun w =>
    match m w with
    | (Done a, w') => k a w'
    | (Raised e, w') => (Raised e, w')
    end.

Definition raise {A} (e : Exn) : M A := fun w => (Raised e, w).

Declare Scope py_scope.
Delimit Scope py_scope with py.
Notation "x <- m ;; k" := (bind m (fun x => k))
  (at level 100, m at next level, right associativity) : py_scope.
Notation "m ;;; k" := (bind m (fun _ => k))
  (at level 100, right associativity) : py_scope.
Local Open Scope py_scope.

(** [try: body / except TwilioRestException as e: handler e]; any other
    exception goes on to the caller. *)
Definition try_rest {A} (body : M A) (handler : RestError -> M A) : M A :=
  fun w =>
    match body w with
    | (Raised (TwilioRestException e), w') => handler e w'
    | r => r
    end.

(** [try: body / except TwilioRestException as e: on_rest e /
    except Exception: on_exc]. *)
Definition try_except {A} (body : M A) (on_rest : RestError -> M A)
    (on_exc : M A) : M A :=
  fun w =>
    match body w with
    | (Done a, w') => (Done a, w')
    | (Raised (TwilioRestException e), w') => on_rest e w'
    | (Raised OtherException, w') => on_exc w'
    end.

Definition get_store : M (gmap Z Session) := fun w => (Done (store w), w).

Definition set_store (f : gmap Z Session -> gmap Z Session) : M unit :=
  fun w => (Done tt, mkWorld (f (store w)) (calls w) (sent w)).

Definition send (o : Outgoing) : M unit :=
  fun w => (Done tt, mkWorld (store w) (calls w) (sent w ++ [o])).

(** A call to Twilio: it is recorded, and the provider's answer is either
    its result or the exception it raises. *)
Definition request {A} (c : ProviderCall)
    (answer : list ProviderCall -> Answer A) : M A :=
  fun w =>
    let w' := mkWorld (store w) (calls w ++ [c]) (sent w) in
    match answer (calls w) with
    | Ok a => (Done a, w')
    | Fails e => (Raised e, w')
    end.

(** Attribute access on the handle: on [None] it raises [AttributeError]. *)
Definition handle (oc : option Client) : M Client :=
  match oc with
  | Some c => ret c
  | None => raise OtherException
  end.

(** ** The client resolver (src/main.py, lines 91-116) *)

Section Resolver.
Variable P : Provider.

Definition accounts_fetch (c : Client) (account_sid : pystr) : M unit :=
  request (AccountFetch c account_sid) (fun h => on_fetch P h c account_sid).

(** [user_twilio_credentials[chat_id].pop("client", None)] *)
Definition pop_client (chat_id : Z) : M unit :=
  set_store (fun m =>
    match m !! chat_id with
    | Some s => <[chat_id := mkSession (sid s) (token s) None]> m
    | None => m
    end).

(** Lines 93-100: [Some c] is the [return] of line 96, [None] falls
    through to line 102. *)
Definition probe_cached (chat_id : Z) : M (option Client) :=
  m <- get_store ;;
  match m !! chat_id with
  | Some s =>
      match client s with
      | Some c =>
          try_rest
            (accounts_fetch c (sid s) ;;; ret (Some c))
            (fun _ => pop_client chat_id ;;; ret None)
      | None => ret None
      end
  | None => ret None
  end.

(** Lines 102-116. *)
Definition reconstruct (chat_id : Z) : M (option Client) :=
  m <- get_store ;;
  match m !! chat_id with
  | Some s =>
      if truthy (sid s) && truthy (token s) then
        try_rest
          (let c := mkClient (sid s) (token s) in
           accounts_fetch c (sid s) ;;;
           set_store (fun m =>
             match m !! chat_id with
             | Some s' => <[chat_id := mkSession (sid s') (token s') (Some c)]> m
             | None => m
             end) ;;;
           ret (Some c))
          (fun _ => set_store (delete chat_id) ;;; ret None)
      else ret None
  | None => ret None
  end.

Definition get_twilio_client (chat_id : Z) : M (option Client) :=
  r <- probe_cached chat_id ;;
  match r with
  | Some c => ret (Some c)
  | None => reconstruct chat_id
  end.
End Resolver.

(** ** Provider operations (src/main.py, lines 118-224) *)

(** [e.details.get('message', str(e)) if e.details else str(e)] *)
Fixpoint dict_get (d : list (pystr * pystr)) (k : pystr) (default : pystr) : pystr :=
  match d with
  | [] => default
  | (k', v) :: d' => if str_eqb k' k then v else dict_get d' k default
  end.

Definition fault_message (e : RestError) : pystr :=
  match details e with
  | DictDetails (kv :: d) => dict_get (kv :: d) (u "message") (text e)
  | _ => text e
  end.

(** The same expression runs inside the handlers of TwilioRestException:
    when [e.details] is true and not a dict, [e.details.get] raises
    AttributeError there, and the exception leaves the function. *)
Definition details_get (e : RestError) : M unit :=
  match details e with
  | OtherDetails true => raise OtherException
  | _ => ret tt
  end.

(** The list calls of the Twilio library read their page with
    [Page.process_response], which raises [TwilioException], not
    [TwilioRestException], for a response that is not 200: whatever the
    provider answers a list call with, the exception the caller sees is not
    a TwilioRestException.  [fetch], [create] and [delete] raise the
    TwilioRestException of the answer. *)
Definition paged {A : Type} (a : Answer A) : Answer A :=
  match a with
  | Ok x => Ok x
  | Fails _ => Fails OtherException
  end.

(** [strftime('%Y-%m-%d %H:%M:%S UTC')] *)
Definition zero_pad (width : nat) (n : Z) : pystr :=
  let d := str_of_int n in replicate (width - length d) 48%N ++ d.

Definition strftime (t : DateTime) : pystr :=
  zero_pad 4 (year t) ++ u "-" ++ zero_pad 2 (month t) ++ u "-" ++
  zero_pad 2 (day t) ++ u " " ++ zero_pad 2 (hour t) ++ u ":" ++
  zero_pad 2 (minute t) ++ u ":" ++ zero_pad 2 (second t) ++ u " UTC".

(** [x in [a, b, c]] on text *)
Definition str_in (x : pystr) (l : list pystr) : bool := existsb (str_eqb x) l.

Section Operations.
Variable P : Provider.

Definition search_params_of (area_code contains_pattern zip_code : option pystr)
    : SearchParams :=
  mkSearchParams 5
    (if truthy_opt area_code then area_code else None)
    (if truthy_opt contains_pattern then contains_pattern else None)
    (if truthy_opt zip_code then zip_code else None).

Definition _internal_search_numbers (client : option Client)
    (country_code : pystr) (area_code contains_pattern zip_code : option pystr)
    : M (option pystr * option (list AvailableNumber)) :=
  let search_params := search_params_of area_code contains_pattern zip_code in
  try_except
    (c <- handle client ;;
     available_numbers <-
       request (AvailableLocalList c country_code search_params)
               (fun h => paged (on_search P h c country_code search_params)) ;;
     match available_numbers with
     | [] =>
         ret (Some (u "😕 No phone numbers found in `" ++ country_code ++
                    u "` matching your criteria:" ++ nl ++
                    u "   - Area Code: `" ++ or_default area_code (u "N/A") ++ u "`" ++ nl ++
                    u "   - Pattern: `" ++ or_default contains_pattern (u "N/A") ++ u "`" ++ nl ++
                    u "   - Zip Code: `" ++ or_default zip_code (u "N/A") ++ u "`"),
              None)
     | _ :: _ => ret (None, Some available_numbers)
     end)
    (fun e =>
       details_get e ;;;
       ret (Some (u "❌ Error searching numbers: _" ++ fault_message e ++ u "_"), None))
    (ret (Some (u "❗ An unexpected error occurred while searching for numbers."), None)).

Definition _internal_buy_number (client : option Client)
    (phone_number_to_buy : pystr) : M pystr :=
  try_except
    (c <- handle client ;;
     purchased_number <-
       request (IncomingCreate c phone_number_to_buy)
               (fun h => on_create P h c phone_number_to_buy) ;;
     ret (u "🎉 Successfully purchased number: *" ++ i_friendly_name purchased_number ++
          u "* (`" ++ i_phone_number purchased_number ++ u "`)" ++ nl ++
          u "   SID: `" ++ i_sid purchased_number ++ u "`"))
    (fun e =>
       details_get e ;;;
       let error_message :=
         u "❌ Error buying number `" ++ phone_number_to_buy ++ u "`: _" ++
         fault_message e ++ u "_" in
       if code e =? 21452 then
         ret (error_message ++ nl ++
              u "   _This number might not be available, or there could be account restrictions._")
       else ret error_message)
    (ret (u "❗ An unexpected error occurred while trying to buy `" ++
          phone_number_to_buy ++ u "`.")).

Definition _internal_list_my_numbers (client : option Client)
    : M (option pystr * option (list IncomingNumber)) :=
  try_except
    (c <- handle client ;;
     incoming_numbers <-
       request (IncomingList c None 20) (fun h => paged (on_list P h c None 20)) ;;
     match incoming_numbers with
     | [] => ret (Some (u "ℹ️ You don't own any Twilio numbers yet."), None)
     | _ :: _ => ret (None, Some incoming_numbers)
     end)
    (fun e =>
       details_get e ;;;
       ret (Some (u "❌ Error listing your numbers: _" ++ fault_message e ++ u "_"), None))
    (ret (Some (u "❗ An unexpected error occurred while listing your numbers."), None)).

Definition release_not_found (phone : pystr) : pystr :=
  u "❓ Number `" ++ phone ++ u "` not found in your account.".

Definition release_done (phone : pystr) : pystr :=
  u "🗑️ Successfully released number: `" ++ phone ++ u "`".

Definition release_fault (phone : pystr) (e : RestError) : pystr :=
  u "❌ Error releasing number `" ++ phone ++ u "`: _" ++ fault_message e ++ u "_".

Definition release_unexpected (phone : pystr) : pystr :=
  u "❗ An unexpected error occurred while releasing `" ++ phone ++ u "`.".

Definition _internal_release_number (client : option Client)
    (phone_number_to_release : pystr) : M PyVal :=
  try_except
    (c <- handle client ;;
     numbers <-
       request (IncomingList c (Some phone_number_to_release) 1)
               (fun h => paged (on_list P h c (Some phone_number_to_release) 1)) ;;
     match numbers with
     | [] => ret (VStr (release_not_found phone_number_to_release))
     | n0 :: _ =>
         let number_sid_to_release := i_sid n0 in
         request (IncomingDelete c number_sid_to_release)
                 (fun h => on_delete P h c number_sid_to_release) ;;;
         ret (VStr (release_done phone_number_to_release))
     end)
    (fun e => details_get e ;;; ret (VTuple (release_fault phone_number_to_release e)))
    (ret (VStr (release_unexpected phone_number_to_release))).

Definition sms_not_owned (twilio_number : pystr) : pystr :=
  u "🤔 You do not seem to own the number `" ++ twilio_number ++
  u "`, or it's not a Twilio number in your account.".

Definition sms_none (twilio_number : pystr) (limit : Z) : pystr :=
  u "📪 No recent SMS messages found for `" ++ twilio_number ++
  u "` (last " ++ str_of_int limit ++ u ").".

Definition sms_fault (twilio_number : pystr) (e : RestError) : pystr :=
  u "❌ Error checking SMS for `" ++ twilio_number ++ u "`: _" ++
  fault_message e ++ u "_".

Definition sms_unexpected (twilio_number : pystr) : pystr :=
  u "❗ An unexpected error occurred while checking SMS for `" ++
  twilio_number ++ u "`.".

(** One turn of the loop of lines 209-217. *)
Definition sms_entry (msg : Message) : pystr :=
  let direction :=
    if str_eqb (m_direction msg) (u "inbound") then u "⬅️ From" else u "➡️ To" in
  let status_emoji :=
    if str_in (m_status msg) [u "delivered"; u "received"; u "sent"] then u "✅"
    else if str_in (m_status msg) [u "queued"; u "accepted"; u "sending"] then u "⏳"
    else u "❌" in
  status_emoji ++ u " " ++ direction ++ u ": `" ++ m_from msg ++ u "`" ++ nl ++
  u "   🗓️ _Sent: " ++
  match m_date_sent msg with Some t => strftime t | None => u "N/A" end ++
  u "_" ++ nl ++
  u "   📜 Body: " ++ m_body msg ++ nl ++
  u "   🆔 SID: `" ++ m_sid msg ++ u "`" ++ nl ++ u "---" ++ nl.

Definition sms_listing (twilio_number : pystr) (limit : Z)
    (messages : list Message) : pystr :=
  fold_left (fun response_text msg => response_text ++ sms_entry msg) messages
    (u "💬 Recent SMS for *" ++ twilio_number ++ u "* (last " ++
     str_of_int limit ++ u "):" ++ nl ++ nl).

Definition _internal_check_sms (client : option Client)
    (twilio_number : pystr) (limit : Z) : M PyVal :=
  try_except
    (c <- handle client ;;
     owned_numbers <-
       request (IncomingList c (Some twilio_number) 1)
               (fun h => paged (on_list P h c (Some twilio_number) 1)) ;;
     match owned_numbers with
     | [] => ret (VStr (sms_not_owned twilio_number))
     | _ :: _ =>
         messages <-
           request (MessagesList c twilio_number limit)
                   (fun h => paged (on_messages P h c twilio_number limit)) ;;
         match messages with
         | [] => ret (VStr (sms_none twilio_number limit))
         | _ :: _ => ret (VStr (sms_listing twilio_number limit messages))
         end
     end)
    (fun e => details_get e ;;; ret (VTuple (sms_fault twilio_number e)))
    (ret (VStr (sms_unexpected twilio_number))).
End Operations.

(** ** Command handlers (src/main.py, lines 227-524)

    A handler receives the chat id of the update and [context.args]. *)

Definition BUY_CALLBACK_PREFIX : pystr := u "buy_".
Definition RELEASE_CALLBACK_PREFIX : pystr := u "release_".
Definition CHECKSMS_CALLBACK_PREFIX : pystr := u "sms_".
Definition MAIN_MENU_CALLBACK_PREFIX : pystr := u "menu_".

Definition OWNER_DETAILS_TEXT : pystr :=
  u "**Bot Name:** @twilloxd_bot" ++ nl ++ nl ++
  u "**Owner/Developer:**" ++ nl ++
  u "👤 Name: Mehidi Hasan" ++ nl ++
  u "📧 Username: @mehidih0003" ++ nl ++ nl ++
  u "**Contact Information:**" ++ nl ++
  u "✈️ Telegram: @mehidixd_bot" ++ nl ++
  u "✉️ Email: mehidiha94@gmail.com" ++ nl ++
  u "📢 Support Channel/Group: t.me/mytestks".

Definition credentials_needed : pystr :=
  u "🔒 *Twilio Credentials Needed*" ++ nl ++ nl ++
  u "It looks like your Twilio credentials are not set or are invalid. " ++
  u "Please use the /configure command first:" ++ nl ++
  u "`/configure <YOUR_ACCOUNT_SID> <YOUR_AUTH_TOKEN>`".

Definition configure_usage : pystr :=
  u "⚠️ *Incorrect Usage*" ++ nl ++ nl ++
  u "Please provide both Account SID and Auth Token." ++ nl ++
  u "Usage: `/configure <ACCOUNT_SID> <AUTH_TOKEN>`" ++ nl ++
  u "Example: `/configure ACxxxxxxxxxxxxxxx your_auth_token_here`".

Definition invalid_sid_format : pystr :=
  u "⚠️ *Invalid Account SID Format*" ++ nl ++ nl ++
  u "Your Account SID should start with `AC` and be 34 characters long.".

Definition configure_success : pystr :=
  u "✅ Twilio credentials configured and validated successfully! You're all set. ✨".

Definition authentication_failed : pystr :=
  u "❌ *Authentication Failed*" ++ nl ++ nl ++
  u "Failed to validate your Twilio credentials. Please double-check your Account SID and Auth Token and try again.".

Definition invalid_phone_format : pystr :=
  u "⚠️ *Invalid Phone Number Format*" ++ nl ++ nl ++
  u "The phone number should start with `+` (e.g., `+1234567890`).".

Definition search_usage : pystr :=
  u "❓*How to Search for Numbers*" ++ nl ++ nl ++
  u "Usage: `/search_numbers <country_code> [area_code_or_none] [pattern_or_none] [zip_code_or_none]`" ++ nl ++
  u "Example: `/search_numbers US 415 SHOP 94107`" ++ nl ++
  u "_Type /help for more examples and details._".

Definition buy_usage : pystr :=
  u "❓*How to Buy a Number*" ++ nl ++ nl ++
  u "Usage: `/buy_number <phone_number_to_buy>`" ++ nl ++
  u "Example: `/buy_number +1234567890`".

Definition release_usage : pystr :=
  u "❓*How to Release a Number*" ++ nl ++ nl ++
  u "Usage: `/release_number <phone_number_to_release>`" ++ nl ++
  u "Example: `/release_number +1234567890`".

Definition check_sms_usage : pystr :=
  u "❓*How to Check SMS*" ++ nl ++ nl ++
  u "Usage: `/check_sms <your_twilio_number> [limit]`" ++ nl ++
  u "Example: `/check_sms +1234567890 5`".

Definition limit_out_of_range : pystr := u "⚠️ Limit must be between 1 and 20.".

Definition limit_not_a_number : pystr := u "⚠️ Invalid limit. It must be a number.".

Definition no_owned_numbers : pystr := u "ℹ️ You don't own any Twilio numbers yet.".

(** [update.message.reply_text(text, ...)] *)
Definition reply_text (text : pystr) : M unit := send (ReplyText (VStr text) None).

Definition Handler : Type := Z -> list pystr -> M unit.

(** Lines 331-335. *)
Definition _normalize_search_arg (arg_val : option pystr) : option pystr :=
  match arg_val with
  | Some s =>
      if truthy s && str_in (lower s) [u "none"; u "_"; u "-"] then None
      else arg_val
  | None => None
  end.

(** The rows of lines 439-447: one Release and one Check SMS button per
    owned number, and the text above them. *)
Definition owned_entry (number_obj : IncomingNumber) : pystr :=
  u "📞 *" ++ i_friendly_name number_obj ++ u "* (`" ++ i_phone_number number_obj ++
  u "`)" ++ nl ++ u "   _SID:_ `" ++ i_sid number_obj ++ u "`" ++ nl ++ u "---" ++ nl.

Definition owned_buttons (number_obj : IncomingNumber) : list Button :=
  [ (u "♻️ Release", RELEASE_CALLBACK_PREFIX ++ i_phone_number number_obj);
    (u "💬 Check SMS", CHECKSMS_CALLBACK_PREFIX ++ i_phone_number number_obj) ].

Definition owned_text (numbers : list IncomingNumber) : pystr :=
  fold_left (fun response_text n => response_text ++ owned_entry n) numbers
    (u "🌟 *Your Twilio Numbers:*" ++ nl ++ nl).

(** The rows of lines 380-386. *)
Definition found_entry (number_obj : AvailableNumber) : pystr :=
  u "📞 *" ++ a_friendly_name number_obj ++ u "* (`" ++ a_phone_number number_obj ++
  u "`)" ++ nl ++ u "   _Region:_ " ++ a_region number_obj ++ u ", _Locality:_ " ++
  a_locality number_obj ++ nl ++ u "---" ++ nl.

Definition found_buttons (number_obj : AvailableNumber) : list Button :=
  [ (u "💰 Buy " ++ a_friendly_name number_obj,
     BUY_CALLBACK_PREFIX ++ a_phone_number number_obj) ].

Definition found_text (numbers : list AvailableNumber) : pystr :=
  fold_left (fun response_text n => response_text ++ found_entry n) numbers
    (u "✅ *Found Available Numbers:*" ++ nl ++ nl).

Section Commands.
Variable P : Provider.

(** The decorator of lines 227-242. *)
Definition require_twilio_config (func : Handler) : Handler :=
  fun chat_id args =>
    client <- get_twilio_client P chat_id ;;
    match client with
    | None => reply_text credentials_needed
    | Some _ => func chat_id args
    end.

(** Lines 298-329. *)
Definition configure_twilio : Handler :=
  fun chat_id args =>
    match args with
    | [account_sid; auth_token] =>
        if negb (startswith account_sid (u "AC")) || negb (len account_sid =? 34)
        then reply_text invalid_sid_format
        else
          set_store (insert chat_id (mkSession account_sid auth_token None)) ;;;
          client <- get_twilio_client P chat_id ;;
          match client with
          | Some _ => reply_text configure_success
          | None => reply_text authentication_failed
          end
    | _ => reply_text configure_usage
    end.

(** Lines 338-393, the function under the decorator.  The branch of line
    388 is not reached: [keyboard_rows] has one row per number and
    [numbers] is not empty there; the same holds for line 449. *)
Definition search_available_numbers_body : Handler :=
  fun chat_id args =>
    client <- get_twilio_client P chat_id ;;
    match args with
    | [] => reply_text search_usage
    | arg0 :: _ =>
        let country_code := str_upper arg0 in
        let area_code := _normalize_search_arg (args !! 1%nat) in
        let contains_pattern := _normalize_search_arg (args !! 2%nat) in
        let zip_code_arg := _normalize_search_arg (args !! 3%nat) in
        let search_criteria_parts :=
          [u "*Country:* `" ++ country_code ++ u "`"] ++
          (if truthy_opt area_code
           then [u "*Area Code:* `" ++ default [] area_code ++ u "`"] else []) ++
          (if truthy_opt contains_pattern
           then [u "*Pattern:* `" ++ default [] contains_pattern ++ u "`"] else []) ++
          (if truthy_opt zip_code_arg
           then [u "*Zip Code:* `" ++ default [] zip_code_arg ++ u "`"] else []) in
        reply_text (u "🔍 Searching for local numbers with criteria:" ++ nl ++ u " " ++
                    join (u ", ") search_criteria_parts ++ u "...") ;;;
        r <- _internal_search_numbers P client country_code area_code
               contains_pattern zip_code_arg ;;
        let '(error_msg, numbers) := r in
        if truthy_opt error_msg then reply_text (default [] error_msg)
        else
          match numbers with
          | None | Some [] => reply_text (u "😕 No numbers found matching your criteria.")
          | Some numbers =>
              send (ReplyText
                      (VStr (found_text numbers ++ nl ++ u "👇 Select a number to buy:"))
                      (Some (map found_buttons numbers)))
          end
    end.

Definition search_available_numbers_command : Handler :=
  require_twilio_config search_available_numbers_body.

(** Lines 396-420, the function under the decorator. *)
Definition buy_number_body : Handler :=
  fun chat_id args =>
    client <- get_twilio_client P chat_id ;;
    match args with
    | [phone_number_to_buy] =>
        if negb (startswith phone_number_to_buy (u "+"))
        then reply_text invalid_phone_format
        else
          reply_text (u "🛒 Attempting to buy `" ++ phone_number_to_buy ++ u "`...") ;;;
          result_message <- _internal_buy_number P client phone_number_to_buy ;;
          reply_text result_message
    | _ => reply_text buy_usage
    end.

Definition buy_number_command : Handler := require_twilio_config buy_number_body.

(** Lines 437-459 and 596-609: the listing of the owned numbers, sent by
    [deliver]. *)
Definition manage_footer : pystr := u "👇 Manage your numbers:".

(** Lines 423-459, the function under the decorator. *)
Definition list_my_numbers_body : Handler :=
  fun chat_id args =>
    client <- get_twilio_client P chat_id ;;
    reply_text (u "📋 Fetching your Twilio numbers...") ;;;
    r <- _internal_list_my_numbers P client ;;
    let '(error_msg, numbers) := r in
    if truthy_opt error_msg then reply_text (default [] error_msg)
    else
      match numbers with
      | None | Some [] => reply_text no_owned_numbers
      | Some numbers =>
          let response_text := owned_text numbers in
          let reply_markup := map owned_buttons numbers in
          let full_message := response_text ++ nl ++ manage_footer in
          if 4000 <? len full_message then
            reply_text response_text ;;;
            send (ReplyText (VStr manage_footer) (Some reply_markup))
          else send (ReplyText (VStr full_message) (Some reply_markup))
      end.

Definition list_my_numbers_command : Handler :=
  require_twilio_config list_my_numbers_body.

(** Lines 463-486, the function under the decorator. *)
Definition release_number_body : Handler :=
  fun chat_id args =>
    client <- get_twilio_client P chat_id ;;
    match args with
    | [phone_number_to_release] =>
        if negb (startswith phone_number_to_release (u "+"))
        then reply_text invalid_phone_format
        else
          reply_text (u "⏳ Attempting to release `" ++ phone_number_to_release ++ u "`...") ;;;
          result_message <- _internal_release_number P client phone_number_to_release ;;
          send (ReplyText result_message None)
    | _ => reply_text release_usage
    end.

Definition release_number_command : Handler :=
  require_twilio_config release_number_body.

(** Lines 502-512: the limit of [/check_sms]; [inl] is the message of the
    early return. *)
Definition parse_limit (args : list pystr) : pystr + Z :=
  match args with
  | _ :: arg1 :: _ =>
      match py_int arg1 with
      | Some limit =>
          if negb ((1 <=? limit) && (limit <=? 20)) then inl limit_out_of_range
          else inr limit
      | None => inl limit_not_a_number
      end
  | _ => inr 5
  end.

(** Lines 522-524. *)
Definition check_sms_fetch (client : option Client) (twilio_number : pystr)
    (limit : Z) : M unit :=
  reply_text (u "📨 Fetching last " ++ str_of_int limit ++
              u " SMS messages for `" ++ twilio_number ++ u "`...") ;;;
  result_message <- _internal_check_sms P client twilio_number limit ;;
  send (ReplyText result_message None).

(** Lines 489-524, the function under the decorator. *)
Definition check_sms_body : Handler :=
  fun chat_id args =>
    client <- get_twilio_client P chat_id ;;
    match args with
    | [] => reply_text check_sms_usage
    | twilio_number :: _ =>
        match parse_limit args with
        | inl message => reply_text message
        | inr limit =>
            if negb (startswith twilio_number (u "+"))
            then reply_text invalid_phone_format
            else check_sms_fetch client twilio_number limit
        end
    end.

Definition check_sms_command : Handler := require_twilio_config check_sms_body.
End Commands.

(** ** The button handler (src/main.py, lines 541-646) *)

(** The branch of the chain [if ... elif ...] of lines 571-646 that a
    callback payload takes, with the text left after the prefix
    ([data[len(PREFIX):]]). *)
Inductive Route :=
| ToMenu (action : pystr)
| ToBuy (phone_number_to_buy : pystr)
| ToRelease (phone_number_to_release : pystr)
| ToCheckSms (phone_number_for_sms : pystr)
| ToNothing.

Definition route (data : pystr) : Route :=
  if startswith data MAIN_MENU_CALLBACK_PREFIX then
    ToMenu (slice_from (len MAIN_MENU_CALLBACK_PREFIX) data)
  else if startswith data BUY_CALLBACK_PREFIX then
    ToBuy (slice_from (len BUY_CALLBACK_PREFIX) data)
  else if startswith data RELEASE_CALLBACK_PREFIX then
    ToRelease (slice_from (len RELEASE_CALLBACK_PREFIX) data)
  else if startswith data CHECKSMS_CALLBACK_PREFIX then
    ToCheckSms (slice_from (len CHECKSMS_CALLBACK_PREFIX) data)
  else ToNothing.

(** Lines 549-556. *)
Definition actions_requiring_client : list pystr :=
  [ BUY_CALLBACK_PREFIX; RELEASE_CALLBACK_PREFIX; CHECKSMS_CALLBACK_PREFIX;
    MAIN_MENU_CALLBACK_PREFIX ++ u "my_numbers_action" ].

Definition needs_client (data : pystr) : bool :=
  existsb (startswith data) actions_requiring_client.

Definition search_guide : pystr :=
  u "*🔍 How to Search for Numbers:*" ++ nl ++ nl ++
  u "Use the command:" ++ nl ++
  u "`/search_numbers <country_code> [area_code_or_none] [pattern_or_none] [zip_code_or_none]`" ++ nl ++ nl ++
  u "*Examples:*" ++ nl ++
  u "- `/search_numbers US 415 SHOP 94107`" ++ nl ++
  u "- `/search_numbers US none none 12345` (search by zip only)" ++ nl ++ nl ++
  u "_Use 'none' or '_' to skip optional parts. Type /help for more details._".

Definition configure_guide : pystr :=
  u "⚙️ *How to Configure Twilio Credentials:*" ++ nl ++ nl ++
  u "Use the command with your Account SID and Auth Token:" ++ nl ++
  u "`/configure <YOUR_ACCOUNT_SID> <YOUR_AUTH_TOKEN>`" ++ nl ++ nl ++
  u "_You can find these on your Twilio Console dashboard._".

Definition help_overview : pystr :=
  u "ℹ️ For a full list of commands and their usage, please type `/help`.".

(** [query.edit_message_text(text, ...)] and [query.message.reply_text] *)
Definition edit_message_text (text : pystr) : M unit :=
  send (EditMessageText (VStr text)).

Section Buttons.
Variable P : Provider.

(** Lines 585-609. *)
Definition my_numbers_action (client : option Client) : M unit :=
  edit_message_text (u "📋 Fetching your Twilio numbers...") ;;;
  r <- _internal_list_my_numbers P client ;;
  let '(error_msg, numbers) := r in
  if truthy_opt error_msg then reply_text (default [] error_msg)
  else
    match numbers with
    | None | Some [] => reply_text no_owned_numbers
    | Some numbers =>
        send (ReplyText (VStr (owned_text numbers ++ nl ++ manage_footer))
                        (Some (map owned_buttons numbers)))
    end.

(** Lines 571-646, with the handle [client] of lines 547-559. *)
Definition dispatch (client : option Client) (data : pystr) : M unit :=
  match route data with
  | ToMenu action =>
      if str_eqb action (u "search_guide") then edit_message_text search_guide
      else if str_eqb action (u "my_numbers_action") then my_numbers_action client
      else if str_eqb action (u "configure_guide") then edit_message_text configure_guide
      else if str_eqb action (u "help_overview") then edit_message_text help_overview
      else if str_eqb action (u "owner_info") then edit_message_text OWNER_DETAILS_TEXT
      else ret tt
  | ToBuy phone_number_to_buy =>
      edit_message_text (u "🛒 Processing purchase for `" ++ phone_number_to_buy ++ u "`...") ;;;
      result_message <- _internal_buy_number P client phone_number_to_buy ;;
      reply_text result_message
  | ToRelease phone_number_to_release =>
      edit_message_text (u "⏳ Processing release for `" ++ phone_number_to_release ++ u "`...") ;;;
      result_message <- _internal_release_number P client phone_number_to_release ;;
      send (ReplyText result_message None)
  | ToCheckSms phone_number_for_sms =>
      let default_limit := 5 in
      edit_message_text (u "📨 Fetching last " ++ str_of_int default_limit ++ u " SMS for `" ++
                         phone_number_for_sms ++ u "`...") ;;;
      result_message <- _internal_check_sms P client phone_number_for_sms default_limit ;;
      send (ReplyText result_message None)
  | ToNothing => ret tt
  end.

(** Lines 541-646: the chat id of the query and [query.data]. *)
Definition button_callback_handler (chat_id : Z) (data : pystr) : M unit :=
  send AnswerQuery ;;;
  if needs_client data then
    client <- get_twilio_client P chat_id ;;
    match client with
    | None => edit_message_text credentials_needed
    | Some _ => dispatch client data
    end
  else dispatch None data.
End Buttons.

(** ** The handlers that need no client (src/main.py, lines 244-296 and
    526-538) *)

Definition ADMIN_CHAT_IDS : list Z := [123456789].

Definition admins_only : pystr := u "⛔ Sorry, this command is for admins only.".

(** The decorator of lines 244-253. *)
Definition admin_only (func : Handler) : Handler :=
  fun chat_id args =>
    if negb (bool_decide (chat_id ∈ ADMIN_CHAT_IDS)) then reply_text admins_only
    else func chat_id args.

(** The keyboard of lines 264-270. *)
Definition start_keyboard : Keyboard :=
  [ [ (u "🔍 Search Guide", MAIN_MENU_CALLBACK_PREFIX ++ u "search_guide") ];
    [ (u "📞 List My Numbers", MAIN_MENU_CALLBACK_PREFIX ++ u "my_numbers_action") ];
    [ (u "⚙️ Configure Guide", MAIN_MENU_CALLBACK_PREFIX ++ u "configure_guide") ];
    [ (u "❓ Full Help (/help)", MAIN_MENU_CALLBACK_PREFIX ++ u "help_overview") ];
    [ (u "ℹ️ Owner Info", MAIN_MENU_CALLBACK_PREFIX ++ u "owner_info") ] ].

(** Lines 256-272; [first_name] is [update.effective_user.first_name]. *)
Definition start (first_name : pystr) : M unit :=
  let welcome_message :=
    u "👋 Hello *" ++ first_name ++ u "*!" ++ nl ++ nl ++
    u "I'm your Twilio Phone Number Management Bot. 🤖" ++ nl ++ nl ++
    u "Use the buttons below or type commands directly." ++ nl ++
    u "First, ensure your Twilio credentials are set using /configure (see guide below if needed)." in
  send (ReplyText (VStr welcome_message) (Some start_keyboard)).

Definition help_text : pystr :=
  u "📖 *Available Commands & Features:*" ++ nl ++ nl ++
  u "`/start` - Welcome message & main menu." ++ nl ++
  u "`/help` - Show this help message." ++ nl ++
  u "`/configure <SID> <TOKEN>` - Set your Twilio credentials." ++ nl ++
  u "    _Example: `/configure ACxxxx your_token_here`_" ++ nl ++
  u "`/search_numbers <country> [area_code] [pattern] [zip]` - Search numbers." ++ nl ++
  u "    _Country (e.g., US, GB, CA). Use 'none' or '_' to skip optional parts._" ++ nl ++
  u "    _Example: `/search_numbers US 415 SHOP 94107`_" ++ nl ++
  u "    _Example: `/search_numbers US none none 94107`_" ++ nl ++
  u "`/buy_number <+phonenumber>` - Buy an available number." ++ nl ++
  u "    _Example: `/buy_number +1234567890`_" ++ nl ++
  u "`/my_numbers` - List your owned Twilio numbers." ++ nl ++
  u "`/release_number <+phonenumber>` - Release an owned number." ++ nl ++
  u "    _Example: `/release_number +1234567890`_" ++ nl ++
  u "`/check_sms <+phonenumber> [limit]` - Check recent SMS." ++ nl ++
  u "    _Example: `/check_sms +1234567890 5`_" ++ nl ++
  u "`/ownerinfo` - Display bot owner/developer info." ++ nl.

Definition help_admin_line : pystr :=
  u "`/admin_stats` - (Admin Only) Basic bot stats." ++ nl.

(** Lines 274-296. *)
Definition help_command : Handler :=
  fun chat_id args =>
    if bool_decide (chat_id ∈ ADMIN_CHAT_IDS)
    then reply_text (help_text ++ help_admin_line)
    else reply_text help_text.


(** Lines 531-538, the function under the decorator;
    [len(user_twilio_credentials)] is the number of records. *)
Definition admin_stats_body : Handler :=
  fun chat_id args =>
    m <- get_store ;;
    let active_configs := Z.of_nat (size m) in
    reply_text (u "📊 *Admin Statistics*" ++ nl ++ nl ++
                u "Active Twilio configurations in this session: *" ++
                str_of_int active_configs ++ u "*").

Definition admin_stats_command : Handler := admin_only admin_stats_body.

(** * Properties *)

(** The world after one more call to Twilio, and after a change of the
    store. *)
Definition called (w : World) (c : ProviderCall) : World :=
  mkWorld (store w) (calls w ++ [c]) (sent w).

Definition stored (w : World) (m : gmap Z Session) : World :=
  mkWorld m (calls w) (sent w).

Definition told (w : World) (o : Outgoing) : World :=
  mkWorld (store w) (calls w) (sent w ++ [o]).

(** The probe of the resolver, as opposed to the calls of the provider
    operations. *)
Definition is_probe (c : ProviderCall) : Prop :=
  match c with
  | AccountFetch _ _ => True
  | _ => False
  end.

(** ** Sample data for the instances *)

Definition sample_sid : pystr := u "AC" ++ replicate 32 120%N.
Definition sample_token : pystr := u "token".
Definition sample_client : Client := mkClient sample_sid sample_token.
Definition sample_session : Session := mkSession sample_sid sample_token None.
Definition sample_phone : pystr := u "+15551230000".

Definition sample_fault : RestError :=
  mkRestError 20003 NoDetails (u "Authenticate").

Definition empty_world : World := mkWorld ∅ [] [].

(** A world in which user 7 has stored [sample_session]. *)
Definition sample_world : World := mkWorld {[ 7 := sample_session ]} [] [].

(** A provider that refuses every call with [sample_fault]. *)
Definition refusing : Provider :=
  mkProvider
    (fun _ _ _ => Fails (TwilioRestException sample_fault))
    (fun _ _ _ _ => Fails (TwilioRestException sample_fault))
    (fun _ _ _ => Fails (TwilioRestException sample_fault))
    (fun _ _ _ _ => Fails (TwilioRestException sample_fault))
    (fun _ _ _ => Fails (TwilioRestException sample_fault))
    (fun _ _ _ _ => Fails (TwilioRestException sample_fault)).

(** A provider that accepts every probe and every purchase, and whose
    account owns no number. *)
Definition accepting : Provider :=
  mkProvider
    (fun _ _ _ => Ok tt)
    (fun _ _ _ _ => Ok [])
    (fun _ _ phone => Ok (mkIncoming phone phone (u "PN1")))
    (fun _ _ _ _ => Ok [])
    (fun _ _ _ => Ok tt)
    (fun _ _ _ _ => Ok []).

(** A provider that accepts every probe and refuses every other call with
    [sample_fault]. *)
Definition probing_only : Provider :=
  mkProvider
    (fun _ _ _ => Ok tt)
    (fun _ _ _ _ => Fails (TwilioRestException sample_fault))
    (fun _ _ _ => Fails (TwilioRestException sample_fault))
    (fun _ _ _ _ => Fails (TwilioRestException sample_fault))
    (fun _ _ _ => Fails (TwilioRestException sample_fault))
    (fun _ _ _ _ => Fails (TwilioRestException sample_fault)).

(** A cached handle is the client built from the pair stored beside
    it. *)
Definition coherent (m : gmap Z Session) : Prop :=
  forall k s c,
    m !! k = Some s -> client s = Some c -> c = mkClient (sid s) (token s).

(** A run from [w] that returns a value and leaves the store and the
    messages handed to Telegram as they were. *)
Definition quiet {A : Type} (w : World) (r : Outcome A * World) : Prop :=
  (exists v, fst r = Done v) /\ store (snd r) = store w /\ sent (snd r) = sent w.

(** The code points of the texts "none", "_" and "-". *)
Definition sentinel_char (c : N) : bool :=
  existsb (N.eqb c) [45; 95; 101; 110; 111]%N.

(** A computation that only adds calls to those already made. *)
Definition grows {A : Type} (m : M A) : Prop :=
  forall w, exists more, calls (snd (m w)) = calls w ++ more.

(** Every record of [w'] was in [w] with the same identifier and the same
    secret. *)
Definition pairs_kept (w w' : World) : Prop :=
  forall k s',
    store w' !! k = Some s' ->
    exists s, store w !! k = Some s /\ sid s' = sid s /\ token s' = token s.

(** A computation that creates no record and changes no stored pair. *)
Definition keeps_pairs {A : Type} (m : M A) : Prop :=
  forall w, pairs_kept w (snd (m w)).



(** The texts that [_normalize_search_arg] reads as an omitted argument. *)
Definition is_sentinel (s : pystr) : bool :=
  str_in (lower s) [u "none"; u "_"; u "-"].

(** A provider that raises an exception that is not a TwilioRestException
    at every call. *)
Definition crashing : Provider :=
  mkProvider
    (fun _ _ _ => Fails OtherException)
    (fun _ _ _ _ => Fails OtherException)
    (fun _ _ _ => Fails OtherException)
    (fun _ _ _ _ => Fails OtherException)
    (fun _ _ _ => Fails OtherException)
    (fun _ _ _ _ => Fails OtherException).

Definition sample_number : IncomingNumber :=
  mkIncoming (u "(555) 123-0000") sample_phone (u "PN1").

(** A provider that accepts every call and whose account owns
    [sample_number]. *)
Definition owning : Provider :=
  mkProvider
    (fun _ _ _ => Ok tt)
    (fun _ _ _ _ => Ok [])
    (fun _ _ phone => Ok (mkIncoming phone phone (u "PN1")))
    (fun _ _ _ _ => Ok [sample_number])
    (fun _ _ _ => Ok tt)
    (fun _ _ _ _ => Ok []).

(** A provider whose account owns [sample_number] and that refuses every
    deletion with [sample_fault]. *)
Definition keeping : Provider :=
  mkProvider
    (fun _ _ _ => Ok tt)
    (fun _ _ _ _ => Ok [])
    (fun _ _ phone => Ok (mkIncoming phone phone (u "PN1")))
    (fun _ _ _ _ => Ok [sample_number])
    (fun _ _ _ => Fails (TwilioRestException sample_fault))
    (fun _ _ _ _ => Ok []).

(** A provider that refuses every purchase with an error whose details
    are a text that is not empty. *)
Definition odd : Provider :=
  mkProvider
    (fun _ _ _ => Ok tt)
    (fun _ _ _ _ => Ok [])
    (fun _ _ _ => Fails (TwilioRestException
                          (mkRestError 21452 (OtherDetails true) (u "Authenticate"))))
    (fun _ _ _ _ => Ok [])
    (fun _ _ _ => Ok tt)
    (fun _ _ _ _ => Ok []).

(** A provider that accepts every probe and refuses every purchase with
    the code of an unavailable number. *)
Definition sold_out : Provider :=
  mkProvider
    (fun _ _ _ => Ok tt)
    (fun _ _ _ _ => Ok [])
    (fun _ _ _ => Fails (TwilioRestException
                          (mkRestError 21452 NoDetails (u "Authenticate"))))
    (fun _ _ _ _ => Ok [])
    (fun _ _ _ => Ok tt)
    (fun _ _ _ _ => Ok []).

(** A world in which user 7 has a validated session. *)
Definition cached_world : World :=
  mkWorld {[ 7 := mkSession sample_sid sample_token (Some sample_client) ]} [] [].

Ltac unfold_monad :=
  unfold bind, ret, raise, try_rest, try_except, get_store, set_store, send,
    request, handle, called, stored, told in *.

(** ** The text helpers on small inputs *)

Example u_decodes_utf8 :
  u "buy_" = [98; 117; 121; 95]%N /\ u "❓" = [10067%N] /\ u "🗑️" = [128465; 65039]%N.
Proof. repeat apply conj; reflexivity. Qed.

Example py_int_values :
  py_int (u "0") = Some 0 /\ py_int (u "21") = Some 21 /\
  py_int (u "007") = Some 7 /\ py_int (u "+5") = Some 5 /\
  py_int (u "-3") = Some (-3) /\ py_int (u "1_0") = Some 10 /\
  py_int (u "") = None /\ py_int (u "abc") = None /\ py_int (u "1__0") = None /\
  py_int (u "_1") = None /\ py_int (u "1_") = None /\ py_int (u "+") = None /\
  py_int (u "2.5") = None /\
  py_int (u "５") = Some 5 /\ py_int (u "٢٠") = Some 20 /\
  py_int (u " 7 ") = Some 7 /\ py_int (u "+ 7") = None /\
  py_int (replicate 4300 49%N) <> None /\ py_int (replicate 4301 49%N) = None.
Proof. repeat apply conj; try discriminate; vm_compute; try reflexivity; discriminate. Qed.

Example str_upper_values :
  str_upper (u "us") = u "US" /\ str_upper (u "ıt") = u "IT" /\
  str_upper (u "straße") = u "STRASSE" /\ str_upper (u "Gb1") = u "GB1".
Proof. repeat apply conj; vm_compute; reflexivity. Qed.

Example str_of_int_values :
  str_of_int 5 = u "5" /\ str_of_int 0 = u "0" /\ str_of_int (-12) = u "-12" /\
  strftime (mkDateTime 2024 3 9 7 5 0) = u "2024-03-09 07:05:00 UTC".
Proof. repeat apply conj; reflexivity. Qed.

Example sample_sid_is_well_formed :
  startswith sample_sid (u "AC") = true /\ len sample_sid = 34.
Proof. split; reflexivity. Qed.

Example normalize_search_arg_values :
  _normalize_search_arg (Some (u "NoNe")) = None /\
  _normalize_search_arg (Some (u "_")) = None /\
  _normalize_search_arg (Some (u "-")) = None /\
  _normalize_search_arg (Some (u "415")) = Some (u "415") /\
  _normalize_search_arg None = None.
Proof. repeat apply conj; reflexivity. Qed.

(** ** The resolver *)

Section ResolverFacts.
Variable P : Provider.
Variable chat_id : Z.

Lemma probe_cached_absent w :
  store w !! chat_id = None -> probe_cached P chat_id w = (Done None, w).
Proof. intros H. unfold probe_cached. unfold_monad. by rewrite H. Qed.

Lemma probe_cached_no_handle w s :
  store w !! chat_id = Some s -> client s = None ->
  probe_cached P chat_id w = (Done None, w).
Proof. intros H Hc. unfold probe_cached. unfold_monad. by rewrite H, Hc. Qed.

Lemma probe_cached_ok w s c :
  store w !! chat_id = Some s -> client s = Some c ->
  on_fetch P (calls w) c (sid s) = Ok tt ->
  probe_cached P chat_id w = (Done (Some c), called w (AccountFetch c (sid s))).
Proof.
  intros H Hc Hf. unfold probe_cached, accounts_fetch. unfold_monad.
  by rewrite H, Hc, Hf.
Qed.

Lemma probe_cached_fault w s c e :
  store w !! chat_id = Some s -> client s = Some c ->
  on_fetch P (calls w) c (sid s) = Fails (TwilioRestException e) ->
  probe_cached P chat_id w =
    (Done None,
     stored (called w (AccountFetch c (sid s)))
            (<[chat_id := mkSession (sid s) (token s) None]> (store w))).
Proof.
  intros H Hc Hf. unfold probe_cached, accounts_fetch, pop_client. unfold_monad.
  rewrite H, Hc, Hf. simpl. by rewrite H.
Qed.

Lemma reconstruct_absent w :
  store w !! chat_id = None -> reconstruct P chat_id w = (Done None, w).
Proof. intros H. unfold reconstruct. unfold_monad. by rewrite H. Qed.

Lemma reconstruct_no_pair w s :
  store w !! chat_id = Some s -> truthy (sid s) && truthy (token s) = false ->
  reconstruct P chat_id w = (Done None, w).
Proof. intros H Hp. unfold reconstruct. unfold_monad. by rewrite H, Hp. Qed.

Lemma reconstruct_ok w s :
  store w !! chat_id = Some s -> truthy (sid s) && truthy (token s) = true ->
  on_fetch P (calls w) (mkClient (sid s) (token s)) (sid s) = Ok tt ->
  reconstruct P chat_id w =
    (Done (Some (mkClient (sid s) (token s))),
     stored (called w (AccountFetch (mkClient (sid s) (token s)) (sid s)))
            (<[chat_id := mkSession (sid s) (token s)
                            (Some (mkClient (sid s) (token s)))]> (store w))).
Proof.
  intros H Hp Hf. unfold reconstruct, accounts_fetch. unfold_monad.
  rewrite H, Hp, Hf. simpl. by rewrite H.
Qed.

Lemma reconstruct_fault w s e :
  store w !! chat_id = Some s -> truthy (sid s) && truthy (token s) = true ->
  on_fetch P (calls w) (mkClient (sid s) (token s)) (sid s) =
    Fails (TwilioRestException e) ->
  reconstruct P chat_id w =
    (Done None,
     stored (called w (AccountFetch (mkClient (sid s) (token s)) (sid s)))
            (delete chat_id (store w))).
Proof.
  intros H Hp Hf. unfold reconstruct, accounts_fetch. unfold_monad.
  by rewrite H, Hp, Hf.
Qed.

Lemma get_twilio_client_unfold w :
  get_twilio_client P chat_id w =
    match probe_cached P chat_id w with
    | (Done (Some c), w') => (Done (Some c), w')
    | (Done None, w') => reconstruct P chat_id w'
    | (Raised e, w') => (Raised e, w')
    end.
Proof.
  unfold get_twilio_client, bind, ret.
  destruct (probe_cached P chat_id w) as [[[c|]|e] w']; reflexivity.
Qed.
End ResolverFacts.

(** C1 (get_twilio_client, lines 91-116).  The resolver follows the order
    cached probe, then reconstruct and probe, then evict:
    - with no record for the user, it returns [None] and calls nothing;
    - with a cached handle whose probe succeeds, it returns that handle
      after this one call;
    - when the probe of the cached handle fails, the handle alone is
      discarded (the identifier and the secret stay), and the resolver goes
      on from that store as it does from a record without handle;
    - from a record without handle that holds an identifier and a secret, a
      new client is built and probed: on success it is cached and returned,
      on failure the whole record is deleted and [None] is returned;
    - a record without handle whose identifier or secret is empty gives
      [None] and no call. *)
Theorem get_twilio_client_fallback_order (P : Provider) (chat_id : Z) (w : World) :
  (store w !! chat_id = None ->
   get_twilio_client P chat_id w = (Done None, w)) /\
  (forall s c,
     store w !! chat_id = Some s -> client s = Some c ->
     on_fetch P (calls w) c (sid s) = Ok tt ->
     get_twilio_client P chat_id w =
       (Done (Some c), called w (AccountFetch c (sid s)))) /\
  (forall s c e,
     store w !! chat_id = Some s -> client s = Some c ->
     on_fetch P (calls w) c (sid s) = Fails (TwilioRestException e) ->
     let w1 := stored (called w (AccountFetch c (sid s)))
                 (<[chat_id := mkSession (sid s) (token s) None]> (store w)) in
     probe_cached P chat_id w = (Done None, w1) /\
     get_twilio_client P chat_id w = get_twilio_client P chat_id w1) /\
  (forall s,
     store w !! chat_id = Some s -> client s = None ->
     truthy (sid s) && truthy (token s) = true ->
     let c := mkClient (sid s) (token s) in
     (on_fetch P (calls w) c (sid s) = Ok tt ->
      get_twilio_client P chat_id w =
        (Done (Some c),
         stored (called w (AccountFetch c (sid s)))
                (<[chat_id := mkSession (sid s) (token s) (Some c)]> (store w)))) /\
     (forall e,
        on_fetch P (calls w) c (sid s) = Fails (TwilioRestException e) ->
        get_twilio_client P chat_id w =
          (Done None,
           stored (called w (AccountFetch c (sid s))) (delete chat_id (store w))))) /\
  (forall s,
     store w !! chat_id = Some s -> client s = None ->
     truthy (sid s) && truthy (token s) = false ->
     get_twilio_client P chat_id w = (Done None, w)).
Proof.
  split; [|split; [|split; [|split]]].
  - intros H. rewrite get_twilio_client_unfold, probe_cached_absent by done.
    by apply reconstruct_absent.
  - intros s c H Hc Hf.
    by rewrite get_twilio_client_unfold, (probe_cached_ok _ _ _ s c).
  - intros s c e H Hc Hf w1. split.
    + by apply (probe_cached_fault _ _ _ s c e).
    + rewrite !get_twilio_client_unfold.
      rewrite (probe_cached_fault _ _ _ s c e) by done.
      fold w1.
      rewrite (probe_cached_no_handle _ _ w1 (mkSession (sid s) (token s) None));
        [done | apply lookup_insert_eq | done].
  - intros s H Hc Hp c. split.
    + intros Hf. rewrite get_twilio_client_unfold.
      rewrite (probe_cached_no_handle _ _ _ s) by done.
      by apply reconstruct_ok.
    + intros e Hf. rewrite get_twilio_client_unfold.
      rewrite (probe_cached_no_handle _ _ _ s) by done.
      by apply (reconstruct_fault _ _ _ s e).
  - intros s H Hc Hp. rewrite get_twilio_client_unfold.
    rewrite (probe_cached_no_handle _ _ _ s) by done.
    by apply (reconstruct_no_pair _ _ _ s).
Qed.

Lemma get_twilio_client_fallback_order_witness :
  get_twilio_client refusing 7 sample_world =
    (Done None,
     stored (called sample_world (AccountFetch sample_client sample_sid))
            (delete 7 (store sample_world))).
Proof.
  destruct (get_twilio_client_fallback_order refusing 7 sample_world)
    as (_ & _ & _ & H & _).
  destruct (H sample_session) as [_ Hfault].
  - apply lookup_singleton_eq.
  - reflexivity.
  - reflexivity.
  - apply (Hfault sample_fault). reflexivity.
Defined.

(** The resolver calls Twilio for probes only. *)
Lemma get_twilio_client_only_probes (P : Provider) (chat_id : Z) (w : World) :
  exists probes,
    calls (snd (get_twilio_client P chat_id w)) = calls w ++ probes /\
    Forall is_probe probes /\
    sent (snd (get_twilio_client P chat_id w)) = sent w.
Proof.
  unfold get_twilio_client, probe_cached, reconstruct, accounts_fetch, pop_client.
  unfold_monad.
  destruct (store w !! chat_id) as [s|] eqn:Hs; simpl.
  2: { rewrite Hs. exists []. by rewrite app_nil_r. }
  destruct (client s) as [c|] eqn:Hc; simpl.
  - destruct (on_fetch P (calls w) c (sid s)) as [[]|[e|]]; simpl.
    + exists [AccountFetch c (sid s)]. repeat split; by repeat constructor.
    + rewrite Hs. simpl. rewrite lookup_insert_eq. simpl.
      destruct (truthy (sid s) && truthy (token s)); simpl.
      * destruct (on_fetch P _ _ _) as [[]|[e'|]]; simpl;
          exists [AccountFetch c (sid s);
                  AccountFetch (mkClient (sid s) (token s)) (sid s)];
          rewrite <- ?app_assoc; repeat split; by repeat constructor.
      * exists [AccountFetch c (sid s)]. repeat split; by repeat constructor.
    + exists [AccountFetch c (sid s)]. repeat split; by repeat constructor.
  - rewrite Hs. simpl.
    destruct (truthy (sid s) && truthy (token s)); simpl.
    + destruct (on_fetch P _ _ _) as [[]|[e'|]]; simpl;
        exists [AccountFetch (mkClient (sid s) (token s)) (sid s)];
        repeat split; by repeat constructor.
    + exists []. by rewrite app_nil_r.
Qed.

(** ** Configuration *)

(** C5 (configure_twilio, lines 311-318).  An account identifier that does
    not start with "AC", or whose length is not 34, is answered with the
    format message alone: no call to Twilio is made and the store is left
    as it was. *)
Theorem configure_rejects_malformed_sid (P : Provider) (chat_id : Z)
    (account_sid auth_token : pystr) (w : World) :
  startswith account_sid (u "AC") = false \/ len account_sid <> 34 ->
  configure_twilio P chat_id [account_sid; auth_token] w =
    (Done tt, told w (ReplyText (VStr invalid_sid_format) None)) /\
  store (snd (configure_twilio P chat_id [account_sid; auth_token] w)) = store w /\
  calls (snd (configure_twilio P chat_id [account_sid; auth_token] w)) = calls w.
Proof.
  intros H.
  assert (negb (startswith account_sid (u "AC")) || negb (len account_sid =? 34)
          = true) as Hguard.
  { destruct H as [-> | H]; [done |].
    apply Z.eqb_neq in H. rewrite H. by rewrite orb_true_r. }
  unfold configure_twilio. rewrite Hguard. done.
Qed.

Lemma configure_rejects_malformed_sid_witness :
  configure_twilio refusing 7 [u "SK123"; sample_token] sample_world =
    (Done tt, told sample_world (ReplyText (VStr invalid_sid_format) None)).
Proof.
  apply (configure_rejects_malformed_sid refusing 7 (u "SK123") sample_token
           sample_world).
  left. reflexivity.
Defined.

(** C2, as the code has it (configure_twilio, lines 320-329, with
    get_twilio_client, lines 111-115).  When the identifier is well formed
    and Twilio refuses the probe of the new pair, configure answers with
    the authentication failure and the record of the user is gone from the
    store: the refused pair is not kept. *)
Theorem configure_refused_pair_is_evicted (P : Provider) (chat_id : Z)
    (account_sid auth_token : pystr) (w : World) (e : RestError) :
  startswith account_sid (u "AC") = true -> len account_sid = 34 ->
  truthy auth_token = true ->
  on_fetch P (calls w) (mkClient account_sid auth_token) account_sid =
    Fails (TwilioRestException e) ->
  configure_twilio P chat_id [account_sid; auth_token] w =
    (Done tt,
     mkWorld (delete chat_id (store w))
             (calls w ++ [AccountFetch (mkClient account_sid auth_token) account_sid])
             (sent w ++ [ReplyText (VStr authentication_failed) None])) /\
  store (snd (configure_twilio P chat_id [account_sid; auth_token] w)) !! chat_id
    = None.
Proof.
  intros Hprefix Hlen Htok Hf.
  assert (truthy account_sid = true) as Hsid.
  { destruct account_sid; [discriminate Hprefix | done]. }
  assert (configure_twilio P chat_id [account_sid; auth_token] w =
    (Done tt,
     mkWorld (delete chat_id (store w))
             (calls w ++ [AccountFetch (mkClient account_sid auth_token) account_sid])
             (sent w ++ [ReplyText (VStr authentication_failed) None]))) as Heq.
  { unfold configure_twilio. rewrite Hprefix, Hlen. simpl.
    unfold bind at 1. unfold set_store at 1.
    set (w1 := mkWorld _ _ _).
    assert (store w1 !! chat_id = Some (mkSession account_sid auth_token None))
      as Hs by apply lookup_insert_eq.
    unfold bind. rewrite get_twilio_client_unfold.
    rewrite (probe_cached_no_handle _ _ _ _ Hs) by done.
    rewrite (reconstruct_fault _ _ _ _ e Hs); simpl; [| by rewrite Hsid, Htok | done].
    unfold reply_text, send. simpl. by rewrite delete_insert_eq. }
  split; [done |]. rewrite Heq. simpl. apply lookup_delete_eq.
Qed.

Lemma configure_refused_pair_is_evicted_witness :
  store (snd (configure_twilio refusing 7 [sample_sid; sample_token] empty_world))
    !! 7 = None.
Proof.
  apply (configure_refused_pair_is_evicted refusing 7 sample_sid sample_token
           empty_world sample_fault); reflexivity.
Defined.

(** C2 as stated fails: with a well-formed identifier and a provider that
    refuses the probe, configure reports the authentication failure, and
    the pair is not left in the store. *)
Lemma configure_refused_pair_not_kept :
  startswith sample_sid (u "AC") = true /\ len sample_sid = 34 /\
  fst (configure_twilio refusing 7 [sample_sid; sample_token] empty_world) = Done tt /\
  sent (snd (configure_twilio refusing 7 [sample_sid; sample_token] empty_world)) =
    [ReplyText (VStr authentication_failed) None] /\
  ~ (exists s,
       store (snd (configure_twilio refusing 7 [sample_sid; sample_token] empty_world))
         !! 7 = Some s).
Proof.
  assert (configure_twilio refusing 7 [sample_sid; sample_token] empty_world =
    (Done tt,
     mkWorld (delete 7 ∅)
             [AccountFetch (mkClient sample_sid sample_token) sample_sid]
             [ReplyText (VStr authentication_failed) None])) as Heq.
  { unfold configure_twilio. 
    replace (startswith sample_sid (u "AC")) with true by reflexivity.
    replace (len sample_sid =? 34) with true by reflexivity. simpl.
    unfold bind at 1. unfold set_store at 1.
    set (w1 := mkWorld _ _ _).
    assert (store w1 !! 7 = Some sample_session) as Hs by apply lookup_insert_eq.
    unfold bind. rewrite get_twilio_client_unfold.
    rewrite (probe_cached_no_handle _ _ _ _ Hs) by done.
    rewrite (reconstruct_fault _ _ _ _ sample_fault Hs); [| done | done].
    unfold reply_text, send. simpl. by rewrite delete_insert_eq. }
  rewrite Heq. simpl. repeat split; try reflexivity.
  intros [s Hs]. by rewrite lookup_delete_eq in Hs.
Qed.

(** ** The gate of the commands that need a client *)

Lemma get_twilio_client_absent (P : Provider) (chat_id : Z) (w : World) :
  store w !! chat_id = None -> get_twilio_client P chat_id w = (Done None, w).
Proof.
  intros H. rewrite get_twilio_client_unfold, probe_cached_absent by done.
  by apply reconstruct_absent.
Qed.

Lemma require_twilio_config_absent (P : Provider) (func : Handler)
    (chat_id : Z) (args : list pystr) (w : World) :
  store w !! chat_id = None ->
  require_twilio_config P func chat_id args w =
    (Done tt, told w (ReplyText (VStr credentials_needed) None)).
Proof.
  intros H. unfold require_twilio_config, bind.
  by rewrite get_twilio_client_absent.
Qed.

(** C6 (require_twilio_config, lines 227-242, over get_twilio_client).  For
    a user without a record in the store, each of the five commands that
    need a client (search, buy, list owned, release, check sms) does one
    thing only, whatever its arguments: it replies with the message that
    asks to configure first, which ends with the usage of /configure.  The
    store and the calls made to Twilio are as before. *)
Theorem commands_without_session_ask_to_configure (P : Provider) (chat_id : Z)
    (args : list pystr) (w : World) :
  store w !! chat_id = None ->
  let refused := (Done tt, told w (ReplyText (VStr credentials_needed) None)) in
  search_available_numbers_command P chat_id args w = refused /\
  buy_number_command P chat_id args w = refused /\
  list_my_numbers_command P chat_id args w = refused /\
  release_number_command P chat_id args w = refused /\
  check_sms_command P chat_id args w = refused /\
  calls (snd refused) = calls w /\ store (snd refused) = store w /\
  exists before,
    credentials_needed =
      before ++ u "`/configure <YOUR_ACCOUNT_SID> <YOUR_AUTH_TOKEN>`".
Proof.
  intros H refused.
  repeat (split; [by apply require_twilio_config_absent |]).
  repeat (split; [reflexivity |]).
  unfold credentials_needed. rewrite !app_assoc. by eexists.
Qed.

Lemma commands_without_session_ask_to_configure_witness :
  buy_number_command accepting 7 [sample_phone] empty_world =
    (Done tt, told empty_world (ReplyText (VStr credentials_needed) None)).
Proof.
  destruct (commands_without_session_ask_to_configure accepting 7 [sample_phone]
              empty_world) as (_ & H & _).
  - apply lookup_empty.
  - exact H.
Defined.

(** ** Release and check_sms *)

(** The texts of the outcomes of a release start with different code
    points, and so do those of check_sms. *)
Lemma release_not_found_distinct (phone phone' : pystr) (e : RestError) :
  release_not_found phone <> release_done phone' /\
  release_not_found phone <> release_fault phone' e /\
  release_not_found phone <> release_unexpected phone'.
Proof. repeat split; intros H; cbv in H; discriminate H. Qed.

Lemma sms_not_owned_distinct (number number' : pystr) (limit : Z) (e : RestError) :
  sms_not_owned number <> sms_none number' limit /\
  sms_not_owned number <> sms_fault number' e /\
  sms_not_owned number <> sms_unexpected number'.
Proof. repeat split; intros H; cbv -[str_of_int] in H; discriminate H. Qed.

Lemma sms_listing_grows (messages : list Message) (start : pystr) :
  exists rest,
    fold_left (fun response_text msg => response_text ++ sms_entry msg)
      messages start = start ++ rest.
Proof.
  revert start. induction messages as [|m messages IH]; intros start; simpl.
  - exists []. by rewrite app_nil_r.
  - destruct (IH (start ++ sms_entry m)) as [rest ->].
    exists (sms_entry m ++ rest). by rewrite app_assoc.
Qed.

Lemma sms_not_owned_not_a_listing (number number' : pystr) (limit : Z)
    (messages : list Message) :
  sms_not_owned number <> sms_listing number' limit messages.
Proof.
  unfold sms_listing.
  destruct (sms_listing_grows messages
              (u "💬 Recent SMS for *" ++ number' ++ u "* (last " ++
               str_of_int limit ++ u "):" ++ nl ++ nl)) as [rest ->].
  intros H. cbv -[str_of_int app] in H. simpl in H. discriminate H.
Qed.

(** C7 (_internal_release_number, lines 178-188).  When the lookup of the
    number (exact match, limit 1) finds nothing, the release returns the
    text "not found in your account", no other text of a release is equal
    to it, and the lookup is the only call made: nothing is deleted. *)
Theorem release_unknown_number_deletes_nothing (P : Provider) (c : Client)
    (phone : pystr) (w : World) :
  on_list P (calls w) c (Some phone) 1 = Ok [] ->
  _internal_release_number P (Some c) phone w =
    (Done (VStr (release_not_found phone)),
     called w (IncomingList c (Some phone) 1)) /\
  (forall c' number_sid,
     In (IncomingDelete c' number_sid)
        (calls (snd (_internal_release_number P (Some c) phone w))) ->
     In (IncomingDelete c' number_sid) (calls w)) /\
  (forall phone' e,
     release_not_found phone <> release_done phone' /\
     release_not_found phone <> release_fault phone' e /\
     release_not_found phone <> release_unexpected phone').
Proof.
  intros H.
  assert (_internal_release_number P (Some c) phone w =
            (Done (VStr (release_not_found phone)),
             called w (IncomingList c (Some phone) 1))) as Heq.
  { unfold _internal_release_number. unfold_monad. simpl. by rewrite H. }
  split; [done |]. split.
  - intros c' number_sid. rewrite Heq. simpl.
    rewrite in_app_iff. intros [Hin | [Hin | []]]; [done | discriminate Hin].
  - intros phone' e. apply release_not_found_distinct.
Qed.

Lemma release_unknown_number_deletes_nothing_witness :
  _internal_release_number accepting (Some sample_client) sample_phone sample_world =
    (Done (VStr (release_not_found sample_phone)),
     called sample_world (IncomingList sample_client (Some sample_phone) 1)).
Proof.
  apply (release_unknown_number_deletes_nothing accepting sample_client
           sample_phone sample_world).
  reflexivity.
Defined.

(** C8 (_internal_check_sms, lines 196-204).  When the lookup of the number
    finds no owned number, check_sms returns the text that says the number
    is not owned, which differs from its other texts, and the lookup is
    the only call made: the messages are not listed. *)
Theorem check_sms_number_not_owned_lists_no_message (P : Provider) (c : Client)
    (twilio_number : pystr) (limit : Z) (w : World) :
  on_list P (calls w) c (Some twilio_number) 1 = Ok [] ->
  _internal_check_sms P (Some c) twilio_number limit w =
    (Done (VStr (sms_not_owned twilio_number)),
     called w (IncomingList c (Some twilio_number) 1)) /\
  (forall c' to limit',
     In (MessagesList c' to limit')
        (calls (snd (_internal_check_sms P (Some c) twilio_number limit w))) ->
     In (MessagesList c' to limit') (calls w)) /\
  (forall number' limit' e,
     sms_not_owned twilio_number <> sms_none number' limit' /\
     sms_not_owned twilio_number <> sms_fault number' e /\
     sms_not_owned twilio_number <> sms_unexpected number') /\
  (forall number' limit' messages,
     sms_not_owned twilio_number <> sms_listing number' limit' messages).
Proof.
  intros H.
  assert (_internal_check_sms P (Some c) twilio_number limit w =
            (Done (VStr (sms_not_owned twilio_number)),
             called w (IncomingList c (Some twilio_number) 1))) as Heq.
  { unfold _internal_check_sms. unfold_monad. simpl. by rewrite H. }
  split; [done |]. split; [| split].
  - intros c' to limit'. rewrite Heq. simpl.
    rewrite in_app_iff. intros [Hin | [Hin | []]]; [done | discriminate Hin].
  - intros number' limit' e. by apply sms_not_owned_distinct.
  - intros number' limit' messages. apply sms_not_owned_not_a_listing.
Qed.

Lemma check_sms_number_not_owned_lists_no_message_witness :
  _internal_check_sms accepting (Some sample_client) sample_phone 5 sample_world =
    (Done (VStr (sms_not_owned sample_phone)),
     called sample_world (IncomingList sample_client (Some sample_phone) 1)).
Proof.
  apply (check_sms_number_not_owned_lists_no_message accepting sample_client
           sample_phone 5 sample_world).
  reflexivity.
Defined.

(** A release returns one of four values, the value of the provider-fault
    branch being a pair, unless the handler of that branch raises. *)
Lemma release_result_shape (P : Provider) (client : option Client)
    (phone : pystr) (w : World) :
  (exists v,
     fst (_internal_release_number P client phone w) = Done v /\
     (v = VStr (release_not_found phone) \/ v = VStr (release_done phone) \/
      v = VStr (release_unexpected phone) \/
      exists e, v = VTuple (release_fault phone e))) \/
  fst (_internal_release_number P client phone w) = Raised OtherException.
Proof.
  unfold _internal_release_number, details_get. unfold_monad.
  destruct client as [c|]; simpl; [| left; eauto 6].
  destruct (on_list P (calls w) c (Some phone) 1) as [[|n0 l]|e0]; simpl;
    [left; eauto 6 | | left; eauto 8].
  destruct (on_delete P _ c (i_sid n0)) as [[]|[e|]]; simpl; [left; eauto 8 | |
    left; eauto 8].
  destruct (details e) as [| d | []]; simpl; [left | left | right | left]; eauto 8.
Qed.

(** The check of the messages calls Twilio through list calls only, so the
    handler of TwilioRestException is not reached: whatever the handle and
    the answers, it returns a text. *)
Lemma check_sms_returns_text (P : Provider) (client : option Client)
    (number : pystr) (limit : Z) (w : World) :
  exists s, fst (_internal_check_sms P client number limit w) = Done (VStr s).
Proof.
  unfold _internal_check_sms. unfold_monad.
  destruct client as [c|]; simpl; [| eauto].
  destruct (on_list P (calls w) c (Some number) 1) as [[|n0 l]|e0]; simpl;
    [eauto | | eauto].
  destruct (on_messages P _ c number limit) as [[|m ms]|e1]; simpl; eauto.
Qed.

(** C10, the code at a refused deletion (_internal_release_number, lines
    186-191).  When the lookup finds the number and its deletion raises a
    TwilioRestException, the release returns the pair (text, None), not a
    text. *)
Theorem release_returns_pair_on_refused_deletion :
  on_list keeping [] sample_client (Some sample_phone) 1 = Ok [sample_number] /\
  on_delete keeping [IncomingList sample_client (Some sample_phone) 1]
    sample_client (i_sid sample_number) =
    Fails (TwilioRestException sample_fault) /\
  _internal_release_number keeping (Some sample_client) sample_phone sample_world =
    (Done (VTuple (release_fault sample_phone sample_fault)),
     called (called sample_world (IncomingList sample_client (Some sample_phone) 1))
            (IncomingDelete sample_client (i_sid sample_number))).
Proof. repeat apply conj; reflexivity. Qed.

(** ** Action tokens *)


(** ** Purchases *)

(** A purchase calls Twilio at most once, to create the number it is
    given. *)
Lemma _internal_buy_number_calls (P : Provider) (client : option Client)
    (phone : pystr) (w : World) :
  calls (snd (_internal_buy_number P client phone w)) = calls w \/
  exists c,
    calls (snd (_internal_buy_number P client phone w)) =
      calls w ++ [IncomingCreate c phone].
Proof.
  unfold _internal_buy_number, details_get. unfold_monad.
  destruct client as [c|]; simpl; [| by left].
  right. exists c.
  destruct (on_create P (calls w) c phone) as [n|[e|]]; simpl; [done | | done].
  destruct (details e) as [| d | []]; simpl; try done;
    by destruct (code e =? 21452).
Qed.

Lemma probes_hold_no_purchase (l : list ProviderCall) (c : Client) (phone : pystr) :
  Forall is_probe l -> ~ In (IncomingCreate c phone) l.
Proof.
  intros Hp H. rewrite List.Forall_forall in Hp. exact (Hp _ H).
Qed.

(** X13.  On the command path (buy_number_command, lines 396-420) every number
    handed to the purchase starts with "+". *)
Lemma buy_number_command_checks_plus (P : Provider) (chat_id : Z)
    (args : list pystr) (w : World) (c : Client) (phone : pystr) :
  In (IncomingCreate c phone) (calls (snd (buy_number_command P chat_id args w))) ->
  In (IncomingCreate c phone) (calls w) \/ startswith phone (u "+") = true.
Proof.
  unfold buy_number_command, require_twilio_config, buy_number_body.
  unfold bind at 1.
  destruct (get_twilio_client_only_probes P chat_id w) as (l1 & Hl1 & Hp1 & _).
  apply (probes_hold_no_purchase _ c phone) in Hp1.
  destruct (get_twilio_client P chat_id w) as [[[c1|]|e1] w1]; simpl in Hl1.
  2,3: simpl; rewrite Hl1, in_app_iff; intros [H|H]; [by left | done].
  unfold bind at 1.
  destruct (get_twilio_client_only_probes P chat_id w1) as (l2 & Hl2 & Hp2 & _).
  apply (probes_hold_no_purchase _ c phone) in Hp2.
  assert (forall x : Prop, In (IncomingCreate c phone) (calls w1 ++ l2) ->
            In (IncomingCreate c phone) (calls w) \/ x) as Hold.
  { intros x. rewrite Hl1, !in_app_iff. intros [[H|H]|H]; [by left | done | done]. }
  destruct (get_twilio_client P chat_id w1) as [[oc|e2] w2]; simpl in Hl2;
    rewrite <- Hl2 in Hold; [| by apply Hold].
  destruct args as [|phone0 [|? ?]]; [by apply Hold | | by apply Hold].
  destruct (startswith phone0 (u "+")) eqn:Hplus; simpl; [| by apply Hold].
  unfold reply_text. unfold bind, send. simpl.
  set (w3 := mkWorld _ _ _).
  destruct (_internal_buy_number_calls P oc phone0 w3) as [Hc | [c' Hc]];
    destruct (_internal_buy_number P oc phone0 w3) as [[r|e] w4]; simpl in *;
    rewrite Hc; try (by apply Hold).
  all: rewrite in_app_iff; intros [H | [H | []]]; [by apply Hold | ].
  all: injection H as -> ->; by right.
Qed.

(** C3, the code on the button path (button_callback_handler, lines
    629-633).  The payload of a token that starts with "buy_" goes to the
    purchase as it is: for the token "buy_15551230000" the number
    "15551230000", which does not start with "+", is handed to Twilio. *)
Theorem button_buys_number_without_plus :
  startswith (u "15551230000") (u "+") = false /\
  calls (snd (button_callback_handler accepting 7 (u "buy_15551230000")
                sample_world)) =
    [ AccountFetch sample_client sample_sid;
      IncomingCreate sample_client (u "15551230000") ].
Proof. split; vm_compute; reflexivity. Qed.

(** ** The limit of /check_sms *)

(** Past the gate, the command is the function under the decorator. *)
Lemma check_sms_command_past_gate (P : Provider) (chat_id : Z)
    (args : list pystr) (w w1 : World) (c1 : Client) :
  get_twilio_client P chat_id w = (Done (Some c1), w1) ->
  check_sms_command P chat_id args w = check_sms_body P chat_id args w1.
Proof.
  intros H. unfold check_sms_command, require_twilio_config, bind. by rewrite H.
Qed.

Lemma check_sms_body_limit (P : Provider) (chat_id : Z)
    (twilio_number limit_text : pystr) (rest : list pystr) (w1 w2 : World)
    (oc : option Client) :
  get_twilio_client P chat_id w1 = (Done oc, w2) ->
  check_sms_body P chat_id (twilio_number :: limit_text :: rest) w1 =
    match py_int limit_text with
    | Some limit =>
        if (1 <=? limit) && (limit <=? 20) then
          if startswith twilio_number (u "+")
          then check_sms_fetch P oc twilio_number limit w2
          else reply_text invalid_phone_format w2
        else reply_text limit_out_of_range w2
    | None => reply_text limit_not_a_number w2
    end.
Proof.
  intros H. unfold check_sms_body, bind. rewrite H. unfold parse_limit.
  destruct (py_int limit_text) as [limit|]; [| done].
  destruct ((1 <=? limit) && (limit <=? 20));
    destruct (startswith twilio_number (u "+")); reflexivity.
Qed.

(** With an owned number and a client, the limit reaches the listing of
    the messages. *)
Lemma check_sms_fetch_lists_with_limit (P : Provider) (c : Client)
    (twilio_number : pystr) (limit : Z) (w : World) (n0 : IncomingNumber)
    (l : list IncomingNumber) :
  on_list P (calls w) c (Some twilio_number) 1 = Ok (n0 :: l) ->
  calls (snd (check_sms_fetch P (Some c) twilio_number limit w)) =
    calls w ++ [IncomingList c (Some twilio_number) 1;
                MessagesList c twilio_number limit].
Proof.
  intros H. unfold check_sms_fetch, _internal_check_sms, reply_text.
  unfold_monad. simpl. rewrite H. simpl.
  destruct (on_messages P _ c twilio_number limit) as [[|m ms]|[e|]]; simpl;
    by rewrite <- app_assoc.
Qed.

(** C9 (check_sms_command, lines 502-512).  For a user who passes the
    gate ([w1] is the world after the resolver of the decorator, [w2] the
    one after the resolver of line 491, which call Twilio for probes
    only), and a command with a second argument:
    - "0" and "21" are answered with the range message, and a text that
      [int] does not parse with the type message; in both cases nothing
      else happens, so no provider operation is run;
    - "1" and "20", for a number that starts with "+", are accepted: the
      command announces the fetch, runs [_internal_check_sms] with the
      limit 1 (20) and replies with its result; for an owned number the
      calls made are the lookup and the listing of the messages with that
      limit. *)
Theorem check_sms_limit_bounds (P : Provider) (chat_id : Z)
    (twilio_number : pystr) (rest : list pystr) (w w1 w2 : World)
    (c1 : Client) (oc : option Client) :
  get_twilio_client P chat_id w = (Done (Some c1), w1) ->
  get_twilio_client P chat_id w1 = (Done oc, w2) ->
  let run limit_text :=
    check_sms_command P chat_id (twilio_number :: limit_text :: rest) w in
  run (u "0") = (Done tt, told w2 (ReplyText (VStr limit_out_of_range) None)) /\
  run (u "21") = (Done tt, told w2 (ReplyText (VStr limit_out_of_range) None)) /\
  (forall limit_text,
     py_int limit_text = None ->
     run limit_text =
       (Done tt, told w2 (ReplyText (VStr limit_not_a_number) None))) /\
  py_int (u "abc") = None /\
  (exists probes, calls w2 = calls w ++ probes /\ Forall is_probe probes) /\
  (startswith twilio_number (u "+") = true ->
   run (u "1") =
     (reply_text (u "📨 Fetching last " ++ str_of_int 1 ++
                  u " SMS messages for `" ++ twilio_number ++ u "`...") ;;;
      result_message <- _internal_check_sms P oc twilio_number 1 ;;
      send (ReplyText result_message None)) w2 /\
   run (u "20") =
     (reply_text (u "📨 Fetching last " ++ str_of_int 20 ++
                  u " SMS messages for `" ++ twilio_number ++ u "`...") ;;;
      result_message <- _internal_check_sms P oc twilio_number 20 ;;
      send (ReplyText result_message None)) w2 /\
   forall c n0 l,
     oc = Some c ->
     on_list P (calls w2) c (Some twilio_number) 1 = Ok (n0 :: l) ->
     calls (snd (run (u "1"))) =
       calls w2 ++ [IncomingList c (Some twilio_number) 1;
                    MessagesList c twilio_number 1] /\
     calls (snd (run (u "20"))) =
       calls w2 ++ [IncomingList c (Some twilio_number) 1;
                    MessagesList c twilio_number 20]).
Proof.
  intros H1 H2 run. unfold run.
  rewrite !(check_sms_command_past_gate _ _ _ _ _ _ H1).
  rewrite !(check_sms_body_limit _ _ _ _ _ _ _ _ H2).
  split; [done |]. split; [done |]. split.
  { intros limit_text Hnone.
    rewrite (check_sms_command_past_gate _ _ _ _ _ _ H1).
    rewrite (check_sms_body_limit _ _ _ _ _ _ _ _ H2). by rewrite Hnone. }
  split; [done |]. split.
  - destruct (get_twilio_client_only_probes P chat_id w) as (l1 & Hl1 & Hp1 & _).
    destruct (get_twilio_client_only_probes P chat_id w1) as (l2 & Hl2 & Hp2 & _).
    rewrite H1 in Hl1. rewrite H2 in Hl2. simpl in Hl1, Hl2.
    exists (l1 ++ l2). rewrite Hl2, Hl1, app_assoc. split; [done |].
    by apply Forall_app.
  - intros Hplus.
    replace (py_int (u "1")) with (Some 1) by reflexivity.
    replace (py_int (u "20")) with (Some 20) by reflexivity.
    cbv beta iota.
    change ((1 <=? 1) && (1 <=? 20)) with true.
    change ((1 <=? 20) && (20 <=? 20)) with true.
    rewrite Hplus. cbv beta iota.
    split; [reflexivity |]. split; [reflexivity |].
    intros c n0 l -> Hl.
    by rewrite !(check_sms_fetch_lists_with_limit P c twilio_number _ w2 n0 l Hl).
Qed.

Lemma check_sms_limit_bounds_witness :
  calls (snd (check_sms_command owning 7 [sample_phone; u "20"] sample_world)) =
    [ AccountFetch sample_client sample_sid;
      AccountFetch sample_client sample_sid;
      IncomingList sample_client (Some sample_phone) 1;
      MessagesList sample_client sample_phone 20 ].
Proof.
  destruct (check_sms_limit_bounds owning 7 sample_phone [] sample_world
              (snd (get_twilio_client owning 7 sample_world))
              (snd (get_twilio_client owning 7
                      (snd (get_twilio_client owning 7 sample_world))))
              sample_client (Some sample_client))
    as (_ & _ & _ & _ & _ & H).
  - vm_compute. reflexivity.
  - vm_compute. reflexivity.
  - destruct (H eq_refl) as (_ & _ & Hcalls).
    destruct (Hcalls sample_client sample_number [] eq_refl eq_refl) as [_ H20].
    rewrite H20. vm_compute. reflexivity.
Defined.

(** * Further properties of the code *)

(** ** The resolver and the store *)

(** The runs of [get_twilio_client], one goal per path through lines
    93-116. *)
Ltac resolver_cases P chat_id w :=
  unfold get_twilio_client, probe_cached, reconstruct, accounts_fetch, pop_client;
  unfold_monad;
  let s := fresh "s" in
  let Hs := fresh "Hs" in
  let Hc := fresh "Hc" in
  let Hp := fresh "Hp" in
  destruct (store w !! chat_id) as [s|] eqn:Hs; simpl; rewrite ?Hs; simpl;
  [ destruct (client s) as [?c|] eqn:Hc; simpl; rewrite ?Hs; simpl;
    [ destruct (on_fetch P (calls w) _ (sid s)) as [[]|[?e|]] eqn:?Hf; simpl;
      rewrite ?Hs; simpl; rewrite ?lookup_insert_eq; simpl;
      [ | destruct (truthy (sid s) && truthy (token s)) eqn:Hp; simpl;
          [ destruct (on_fetch P (calls w ++ _) _ (sid s)) as [[]|[?e|]] eqn:?Hf; simpl;
            rewrite ?lookup_insert_eq; simpl | ]
        | ]
    | destruct (truthy (sid s) && truthy (token s)) eqn:Hp; simpl;
      [ destruct (on_fetch P (calls w) _ (sid s)) as [[]|[?e|]] eqn:?Hf; simpl;
        rewrite ?Hs; simpl | ] ]
  | ].

Lemma get_twilio_client_frame (P : Provider) (chat_id : Z) (w : World) (k : Z) :
  k <> chat_id ->
  store (snd (get_twilio_client P chat_id w)) !! k = store w !! k.
Proof.
  intros Hk. resolver_cases P chat_id w;
    rewrite ?lookup_delete_ne, ?lookup_insert_ne by done; done.
Qed.

Lemma get_twilio_client_same_pair (P : Provider) (chat_id : Z) (w : World)
    (s' : Session) :
  store (snd (get_twilio_client P chat_id w)) !! chat_id = Some s' ->
  exists s, store w !! chat_id = Some s /\ sid s' = sid s /\ token s' = token s.
Proof.
  resolver_cases P chat_id w;
    rewrite ?lookup_delete_eq, ?lookup_insert_eq, ?Hs;
    intros [=]; subst; eauto.
Qed.

(** X1.  The resolver works on the record of its user alone: the records of
    the other users stay as they are, a user without record gets none, and
    the identifier and the secret of a record that stays are those it
    had. *)
Theorem get_twilio_client_keeps_other_records (P : Provider) (chat_id : Z)
    (w : World) :
  (forall k, k <> chat_id ->
     store (snd (get_twilio_client P chat_id w)) !! k = store w !! k) /\
  (forall s',
     store (snd (get_twilio_client P chat_id w)) !! chat_id = Some s' ->
     exists s, store w !! chat_id = Some s /\ sid s' = sid s /\ token s' = token s).
Proof. split; [apply get_twilio_client_frame | apply get_twilio_client_same_pair]. Qed.

Lemma get_twilio_client_keeps_other_records_witness :
  store (snd (get_twilio_client refusing 7
                (mkWorld (<[ 8 := sample_session ]> {[ 7 := sample_session ]}) [] [])))
    !! 8 = Some sample_session.
Proof.
  destruct (get_twilio_client_keeps_other_records refusing 7
              (mkWorld (<[ 8 := sample_session ]> {[ 7 := sample_session ]}) [] []))
    as [H _].
  rewrite (H 8) by discriminate. apply lookup_insert_eq.
Defined.

(** X2.  What the resolver returns is what the store holds afterwards: a
    returned handle is the cached handle of the user, and after [None] the
    user has no cached handle. *)
Theorem get_twilio_client_returns_cached_handle (P : Provider) (chat_id : Z)
    (w : World) :
  (forall c,
     fst (get_twilio_client P chat_id w) = Done (Some c) ->
     exists s,
       store (snd (get_twilio_client P chat_id w)) !! chat_id = Some s /\
       client s = Some c) /\
  (fst (get_twilio_client P chat_id w) = Done None ->
   forall s,
     store (snd (get_twilio_client P chat_id w)) !! chat_id = Some s ->
     client s = None).
Proof.
  split.
  - intros c0. resolver_cases P chat_id w; intros [=]; subst;
      rewrite ?lookup_insert_eq; eauto.
  - resolver_cases P chat_id w; intros [=] s0;
      rewrite ?lookup_delete_eq, ?lookup_insert_eq, ?Hs; intros [=]; by subst.
Qed.

Lemma get_twilio_client_returns_cached_handle_witness :
  exists s,
    store (snd (get_twilio_client accepting 7 sample_world)) !! 7 = Some s /\
    client s = Some sample_client.
Proof.
  destruct (get_twilio_client_returns_cached_handle accepting 7 sample_world)
    as [H _].
  apply H. vm_compute. reflexivity.
Defined.

(** X3.  The resolver calls Twilio at most twice, each time to fetch the
    account of the identifier stored for the user. *)
Theorem get_twilio_client_probes_at_most_twice (P : Provider) (chat_id : Z)
    (w : World) :
  exists probes,
    calls (snd (get_twilio_client P chat_id w)) = calls w ++ probes /\
    (length probes <= 2)%nat /\
    forall call, In call probes ->
      exists c s, store w !! chat_id = Some s /\ call = AccountFetch c (sid s).
Proof.
  resolver_cases P chat_id w.
  all: try (exists []; rewrite app_nil_r; repeat split; [simpl; lia | intros ? []]).
  all: try (eexists [_]; repeat split; [simpl; lia |];
            intros ? [<- | []]; eauto).
  all: rewrite <- app_assoc; eexists [_; _]; repeat split; [simpl; lia |];
       intros ? [<- | [<- | []]]; eauto.
Qed.

Lemma coherent_insert (m : gmap Z Session) (k : Z) (s : Session) :
  coherent m ->
  (forall c, client s = Some c -> c = mkClient (sid s) (token s)) ->
  coherent (<[k := s]> m).
Proof.
  intros Hm Hs k' s' c. destruct (decide (k = k')) as [<- | Hne].
  - rewrite lookup_insert_eq. intros [= <-]. apply Hs.
  - rewrite lookup_insert_ne by done. apply Hm.
Qed.

Lemma coherent_delete (m : gmap Z Session) (k : Z) :
  coherent m -> coherent (delete k m).
Proof.
  intros Hm k' s' c. destruct (decide (k = k')) as [<- | Hne].
  - by rewrite lookup_delete_eq.
  - rewrite lookup_delete_ne by done. apply Hm.
Qed.

Lemma get_twilio_client_coherent (P : Provider) (chat_id : Z) (w : World) :
  coherent (store w) -> coherent (store (snd (get_twilio_client P chat_id w))).
Proof.
  intros Hm. resolver_cases P chat_id w; try done;
    repeat first [ apply coherent_delete | apply coherent_insert ]; try done;
    simpl; intros ? [=]; by subst.
Qed.

(** X4.  In every record that holds a cached handle, the handle is the client
    built from the identifier and the secret of that record: the resolver
    and the configuration keep the store that way, whatever the arguments
    and the answers of Twilio. *)
Theorem handlers_keep_store_coherent (P : Provider) (chat_id : Z)
    (args : list pystr) (w : World) :
  coherent (store w) ->
  coherent (store (snd (get_twilio_client P chat_id w))) /\
  coherent (store (snd (configure_twilio P chat_id args w))).
Proof.
  intros Hm. split; [by apply get_twilio_client_coherent |].
  unfold configure_twilio.
  destruct args as [|account_sid [|auth_token [|? ?]]]; try done.
  destruct (negb (startswith account_sid (u "AC")) || negb (len account_sid =? 34));
    [done |].
  unfold bind at 1. unfold set_store at 1.
  set (w1 := mkWorld _ _ _).
  assert (coherent (store w1)) as H1.
  { apply coherent_insert; [done | intros ? [=]]. }
  apply (get_twilio_client_coherent P chat_id) in H1.
  unfold bind.
  destruct (get_twilio_client P chat_id w1) as [[[c|]|e] w2]; done.
Qed.

Lemma handlers_keep_store_coherent_witness :
  coherent (store (snd (configure_twilio accepting 7 [sample_sid; sample_token]
                          empty_world))).
Proof.
  apply (handlers_keep_store_coherent accepting 7 [sample_sid; sample_token]
           empty_world).
  intros k s c H. simpl in H. rewrite lookup_empty in H. discriminate H.
Defined.



(** ** Configuration *)

(** X6.  A well-formed identifier with a secret that Twilio accepts: the pair
    replaces whatever record the user had, the new client is cached beside
    it after one probe, and the reply is the success text. *)
Theorem configure_accepted_pair_is_cached (P : Provider) (chat_id : Z)
    (account_sid auth_token : pystr) (w : World) :
  startswith account_sid (u "AC") = true -> len account_sid = 34 ->
  truthy auth_token = true ->
  on_fetch P (calls w) (mkClient account_sid auth_token) account_sid = Ok tt ->
  configure_twilio P chat_id [account_sid; auth_token] w =
    (Done tt,
     mkWorld (<[chat_id := mkSession account_sid auth_token
                             (Some (mkClient account_sid auth_token))]> (store w))
             (calls w ++ [AccountFetch (mkClient account_sid auth_token) account_sid])
             (sent w ++ [ReplyText (VStr configure_success) None])).
Proof.
  intros Hprefix Hlen Htok Hf.
  assert (truthy account_sid = true) as Hsid.
  { destruct account_sid; [discriminate Hprefix | done]. }
  unfold configure_twilio. rewrite Hprefix, Hlen. simpl.
  unfold bind at 1. unfold set_store at 1.
  set (w1 := mkWorld _ _ _).
  assert (store w1 !! chat_id = Some (mkSession account_sid auth_token None))
    as Hs by apply lookup_insert_eq.
  unfold bind. rewrite get_twilio_client_unfold.
  rewrite (probe_cached_no_handle _ _ _ _ Hs) by done.
  rewrite (reconstruct_ok _ _ _ _ Hs); simpl; [| by rewrite Hsid, Htok | done].
  unfold reply_text, send. simpl. by rewrite insert_insert_eq.
Qed.

Lemma configure_accepted_pair_is_cached_witness :
  configure_twilio accepting 7 [sample_sid; sample_token] empty_world =
    (Done tt,
     mkWorld (<[7 := mkSession sample_sid sample_token (Some sample_client)]> ∅)
             [AccountFetch sample_client sample_sid]
             [ReplyText (VStr configure_success) None]).
Proof.
  apply (configure_accepted_pair_is_cached accepting 7 sample_sid sample_token
           empty_world); reflexivity.
Defined.

(** X7.  When the probe of a new pair raises an exception that is not a
    TwilioRestException, configure raises it too: nothing is replied, and
    the pair stays in the store without having been validated. *)
Theorem configure_unexpected_exception_keeps_pair (P : Provider) (chat_id : Z)
    (account_sid auth_token : pystr) (w : World) :
  startswith account_sid (u "AC") = true -> len account_sid = 34 ->
  truthy auth_token = true ->
  on_fetch P (calls w) (mkClient account_sid auth_token) account_sid =
    Fails OtherException ->
  configure_twilio P chat_id [account_sid; auth_token] w =
    (Raised OtherException,
     mkWorld (<[chat_id := mkSession account_sid auth_token None]> (store w))
             (calls w ++ [AccountFetch (mkClient account_sid auth_token) account_sid])
             (sent w)).
Proof.
  intros Hprefix Hlen Htok Hf.
  assert (truthy account_sid = true) as Hsid.
  { destruct account_sid; [discriminate Hprefix | done]. }
  unfold configure_twilio. rewrite Hprefix, Hlen. simpl.
  unfold bind at 1. unfold set_store at 1.
  set (w1 := mkWorld _ _ _).
  assert (store w1 !! chat_id = Some (mkSession account_sid auth_token None))
    as Hs by apply lookup_insert_eq.
  unfold bind. rewrite get_twilio_client_unfold.
  rewrite (probe_cached_no_handle _ _ _ _ Hs) by done.
  unfold reconstruct, accounts_fetch. unfold_monad.
  rewrite Hs. subst w1. simpl. rewrite Hsid, Htok. simpl. by rewrite Hf.
Qed.

Lemma configure_unexpected_exception_keeps_pair_witness :
  configure_twilio crashing 7 [sample_sid; sample_token] empty_world =
    (Raised OtherException,
     mkWorld (<[7 := sample_session]> ∅)
             [AccountFetch sample_client sample_sid] []).
Proof.
  apply (configure_unexpected_exception_keeps_pair crashing 7 sample_sid
           sample_token empty_world); reflexivity.
Defined.

(** With any number of arguments other than two, configure replies with
    its usage and does nothing else. *)
Theorem configure_wrong_argument_count (P : Provider) (chat_id : Z)
    (args : list pystr) (w : World) :
  length args <> 2%nat ->
  configure_twilio P chat_id args w =
    (Done tt, told w (ReplyText (VStr configure_usage) None)).
Proof.
  intros H. destruct args as [|a [|b [|c rest]]]; try done.
Qed.

Lemma configure_wrong_argument_count_witness :
  configure_twilio refusing 7 [sample_sid] sample_world =
    (Done tt, told sample_world (ReplyText (VStr configure_usage) None)).
Proof.
  apply (configure_wrong_argument_count refusing 7 [sample_sid] sample_world).
  simpl. lia.
Defined.

(** ** Provider operations *)

(** X8.  The operations catch what Twilio raises, with one way out: the
    search, the listing of the numbers and the check of the messages
    always return a value; a purchase and a release return a value unless
    the creation (the deletion) raised a TwilioRestException whose details
    are true and not a dict, in which case the handler itself raises, after
    that call.  In every case the store and the messages handed to Telegram
    are left as they were. *)
Theorem operations_raise_only_on_odd_details (P : Provider)
    (client : option Client) (country phone : pystr)
    (area pattern zip : option pystr) (limit : Z) (w : World) :
  quiet w (_internal_search_numbers P client country area pattern zip w) /\
  quiet w (_internal_list_my_numbers P client w) /\
  quiet w (_internal_check_sms P client phone limit w) /\
  (quiet w (_internal_buy_number P client phone w) \/
   exists c e,
     client = Some c /\
     on_create P (calls w) c phone = Fails (TwilioRestException e) /\
     details e = OtherDetails true /\
     _internal_buy_number P client phone w =
       (Raised OtherException, called w (IncomingCreate c phone))) /\
  (quiet w (_internal_release_number P client phone w) \/
   exists c e n0 l,
     client = Some c /\
     on_list P (calls w) c (Some phone) 1 = Ok (n0 :: l) /\
     on_delete P (calls w ++ [IncomingList c (Some phone) 1]) c (i_sid n0) =
       Fails (TwilioRestException e) /\
     details e = OtherDetails true /\
     _internal_release_number P client phone w =
       (Raised OtherException,
        called (called w (IncomingList c (Some phone) 1))
               (IncomingDelete c (i_sid n0)))) /\
  _internal_buy_number odd (Some sample_client) sample_phone sample_world =
    (Raised OtherException,
     called sample_world (IncomingCreate sample_client sample_phone)).
Proof.
  unfold quiet, _internal_search_numbers, _internal_buy_number,
    _internal_list_my_numbers, _internal_release_number, _internal_check_sms,
    details_get.
  unfold_monad. destruct client as [c|]; simpl.
  2: { repeat apply conj; try (left; repeat apply conj); eauto. }
  split; [| split; [| split; [| split; [| split]]]].
  - destruct (on_search P _ c country _) as [[|? ?]|e0]; simpl;
      repeat split; eauto.
  - destruct (on_list P _ c None 20) as [[|? ?]|e0]; simpl;
      repeat split; eauto.
  - destruct (on_list P _ c (Some phone) 1) as [[|n0 ?]|e0]; simpl;
      [| destruct (on_messages P _ c phone limit) as [[|? ?]|e1]; simpl |];
      repeat split; eauto.
  - destruct (on_create P _ c phone) as [?|[e|]] eqn:Hc; simpl.
    + left. repeat split; eauto.
    + destruct (details e) as [| d | []] eqn:Hd; simpl.
      3: { right. exists c, e. by repeat split. }
      all: left; destruct (code e =? 21452); simpl; repeat split; eauto.
    + left. repeat split; eauto.
  - destruct (on_list P _ c (Some phone) 1) as [[|n0 l]|e0] eqn:Hl; simpl.
    1,3: left; repeat split; eauto.
    destruct (on_delete P _ c (i_sid n0)) as [[]|[e|]] eqn:Hdel; simpl.
    1,3: left; repeat split; eauto.
    destruct (details e) as [| d | []] eqn:Hd; simpl.
    3: { right. exists c, e, n0, l. by repeat split. }
    all: left; repeat split; eauto.
  - reflexivity.
Qed.

(** X9.  The result of the two list operations is either a text that is not
    empty, with no list, or no text with the list Twilio returned, which
    is then not empty: the callers, which test the text first, never find
    both or neither. *)
Theorem list_operations_result_shape (P : Provider) (client : option Client)
    (country : pystr) (area pattern zip : option pystr) (w : World) :
  (exists r,
     fst (_internal_search_numbers P client country area pattern zip w) = Done r /\
     ((exists msg, r = (Some msg, None) /\ truthy msg = true) \/
      (exists c n l,
         r = (None, Some (n :: l)) /\ client = Some c /\
         on_search P (calls w) c country (search_params_of area pattern zip) =
           Ok (n :: l)))) /\
  (exists r,
     fst (_internal_list_my_numbers P client w) = Done r /\
     ((exists msg, r = (Some msg, None) /\ truthy msg = true) \/
      (exists c n l,
         r = (None, Some (n :: l)) /\ client = Some c /\
         on_list P (calls w) c None 20 = Ok (n :: l)))).
Proof.
  unfold _internal_search_numbers, _internal_list_my_numbers.
  unfold_monad. destruct client as [c|]; simpl.
  2: { split; eexists; (split; [reflexivity |]); left; eexists; by split. }
  split.
  - destruct (on_search P _ c country _) as [[|n l]|[e|]] eqn:Hf; simpl;
      eexists; (split; [reflexivity |]);
      [left | right | left | left]; eauto 10.
  - destruct (on_list P _ c None 20) as [[|n l]|[e|]] eqn:Hf; simpl;
      eexists; (split; [reflexivity |]);
      [left | right | left | left]; eauto 10.
Qed.

(** X10.  A release deletes at most the number its lookup returned first: any
    deletion it adds to the calls is made with the handle it was given and
    the identifier of the first number of the lookup; and when Twilio
    accepts the deletion, the lookup and the deletion are the two calls
    made and the success text is returned. *)
Theorem release_deletes_the_looked_up_number (P : Provider) (c : Client)
    (phone : pystr) (w : World) :
  (forall c' number_sid,
     In (IncomingDelete c' number_sid)
        (calls (snd (_internal_release_number P (Some c) phone w))) ->
     In (IncomingDelete c' number_sid) (calls w) \/
     c' = c /\
     exists n0 l,
       on_list P (calls w) c (Some phone) 1 = Ok (n0 :: l) /\
       number_sid = i_sid n0) /\
  (forall n0 l,
     on_list P (calls w) c (Some phone) 1 = Ok (n0 :: l) ->
     on_delete P (calls w ++ [IncomingList c (Some phone) 1]) c (i_sid n0) = Ok tt ->
     _internal_release_number P (Some c) phone w =
       (Done (VStr (release_done phone)),
        called (called w (IncomingList c (Some phone) 1))
               (IncomingDelete c (i_sid n0)))).
Proof.
  split.
  - intros c' number_sid.
    unfold _internal_release_number, details_get. unfold_monad. simpl.
    destruct (on_list P (calls w) c (Some phone) 1) as [[|n0 l]|e0] eqn:Hl;
      simpl.
    2: destruct (on_delete P _ c (i_sid n0)) as [[]|[e|]]; simpl.
    3: destruct (details e) as [| ? | []]; simpl.
    all: rewrite ?in_app_iff; simpl; intros H;
      repeat match goal with
             | H : _ \/ _ |- _ => destruct H as [H | H]
             end;
      try (by left); try done; try discriminate H.
    all: injection H as <- <-; right; eauto.
  - intros n0 l Hl Hd.
    unfold _internal_release_number. unfold_monad. simpl.
    rewrite Hl. simpl. by rewrite Hd.
Qed.

Lemma release_deletes_the_looked_up_number_witness :
  _internal_release_number owning (Some sample_client) sample_phone sample_world =
    (Done (VStr (release_done sample_phone)),
     called (called sample_world (IncomingList sample_client (Some sample_phone) 1))
            (IncomingDelete sample_client (u "PN1"))).
Proof.
  destruct (release_deletes_the_looked_up_number owning sample_client sample_phone
              sample_world) as [_ H].
  apply (H sample_number []); reflexivity.
Defined.

(** ** What the commands send to Twilio *)

(** The calls of a command under the decorator whose function starts with
    the resolver (as all five do): the probes of the two resolvers, and
    the calls of what follows. *)
Lemma gated_command_calls (P : Provider) (body : Handler)
    (k : Z -> list pystr -> option Client -> M unit)
    (Q : ProviderCall -> Prop) (chat_id : Z) (args : list pystr) (w : World) :
  (forall chat_id args,
     body chat_id args = bind (get_twilio_client P chat_id) (k chat_id args)) ->
  (forall oc w2 call,
     In call (calls (snd (k chat_id args oc w2))) -> In call (calls w2) \/ Q call) ->
  forall call,
    In call (calls (snd (require_twilio_config P body chat_id args w))) ->
    In call (calls w) \/ is_probe call \/ Q call.
Proof.
  intros Hbody Hk call. unfold require_twilio_config. unfold bind at 1.
  destruct (get_twilio_client_only_probes P chat_id w) as (l1 & Hl1 & Hp1 & _).
  rewrite List.Forall_forall in Hp1.
  destruct (get_twilio_client P chat_id w) as [[[c1|]|e1] w1]; simpl in Hl1.
  2,3: simpl; rewrite Hl1, in_app_iff; intros [H|H]; eauto.
  rewrite Hbody. unfold bind at 1.
  destruct (get_twilio_client_only_probes P chat_id w1) as (l2 & Hl2 & Hp2 & _).
  rewrite List.Forall_forall in Hp2.
  assert (In call (calls w1 ++ l2) -> In call (calls w) \/ is_probe call \/ Q call)
    as Hold.
  { rewrite Hl1, !in_app_iff. intros [[H|H]|H]; eauto. }
  destruct (get_twilio_client P chat_id w1) as [[oc|e2] w2]; simpl in Hl2;
    rewrite <- Hl2 in Hold; [| by apply Hold].
  intros H. apply Hk in H. destruct H as [H | H]; eauto.
Qed.

Lemma parse_limit_in_range (args : list pystr) (limit : Z) :
  parse_limit args = inr limit -> 1 <= limit <= 20.
Proof.
  unfold parse_limit. destruct args as [|a0 [|a1 rest]]; try (intros [= <-]; lia).
  destruct (py_int a1) as [n|]; [| done].
  destruct (1 <=? n) eqn:H1; destruct (n <=? 20) eqn:H2; simpl; try done.
  intros [= <-]. lia.
Qed.

Lemma _internal_check_sms_calls (P : Provider) (client : option Client)
    (number : pystr) (limit : Z) (w : World) (call : ProviderCall) :
  In call (calls (snd (_internal_check_sms P client number limit w))) ->
  In call (calls w) \/
  exists c, call = IncomingList c (Some number) 1 \/ call = MessagesList c number limit.
Proof.
  unfold _internal_check_sms. unfold_monad.
  destruct client as [c|]; simpl; [| by left].
  destruct (on_list P (calls w) c (Some number) 1) as [[|n0 l]|[e|]]; simpl.
  2: destruct (on_messages P _ c number limit) as [[|? ?]|[e|]]; simpl.
  all: rewrite ?in_app_iff; simpl; intros H;
    repeat match goal with
           | H : _ \/ _ |- _ => destruct H as [H | H]
           end;
    try (by left); try done; subst; eauto.
Qed.

Lemma _internal_release_number_calls (P : Provider) (client : option Client)
    (number : pystr) (w : World) (call : ProviderCall) :
  In call (calls (snd (_internal_release_number P client number w))) ->
  In call (calls w) \/
  exists c,
    call = IncomingList c (Some number) 1 \/
    exists number_sid, call = IncomingDelete c number_sid.
Proof.
  unfold _internal_release_number, details_get. unfold_monad.
  destruct client as [c|]; simpl; [| by left].
  destruct (on_list P (calls w) c (Some number) 1) as [[|n0 l]|e0]; simpl.
  2: destruct (on_delete P _ c (i_sid n0)) as [[]|[e|]]; simpl.
  3: destruct (details e) as [| ? | []]; simpl.
  all: rewrite ?in_app_iff; simpl; intros H;
    repeat match goal with
           | H : _ \/ _ |- _ => destruct H as [H | H]
           end;
    try (by left); try done; subst; eauto 6.
Qed.

(** X11.  Whatever its arguments, the store and the answers of Twilio,
    /check_sms adds to the calls only the probes of the resolver, the
    lookup of its first argument and the listing of the messages sent to
    it; the first argument then starts with "+" and the limit of the
    listing is between 1 and 20. *)
Theorem check_sms_command_calls_within_bounds (P : Provider) (chat_id : Z)
    (args : list pystr) (w : World) (call : ProviderCall) :
  In call (calls (snd (check_sms_command P chat_id args w))) ->
  In call (calls w) \/ is_probe call \/
  exists c number limit,
    head args = Some number /\ startswith number (u "+") = true /\
    1 <= limit <= 20 /\
    (call = IncomingList c (Some number) 1 \/ call = MessagesList c number limit).
Proof.
  revert call.
  apply (gated_command_calls P (check_sms_body P)
           (fun _ args client =>
              match args with
              | [] => reply_text check_sms_usage
              | twilio_number :: _ =>
                  match parse_limit args with
                  | inl message => reply_text message
                  | inr limit =>
                      if negb (startswith twilio_number (u "+"))
                      then reply_text invalid_phone_format
                      else check_sms_fetch P client twilio_number limit
                  end
              end)
           (fun call =>
              exists c number limit,
                head args = Some number /\ startswith number (u "+") = true /\
                1 <= limit <= 20 /\
                (call = IncomingList c (Some number) 1 \/
                 call = MessagesList c number limit))); [reflexivity |].
  intros oc w2 call0.
  destruct args as [|number rest]; [by left |].
  destruct (parse_limit (number :: rest)) as [message | limit] eqn:Hlimit;
    [by left |].
  apply parse_limit_in_range in Hlimit.
  destruct (startswith number (u "+")) eqn:Hplus; simpl; [| by left].
  unfold check_sms_fetch, reply_text. unfold bind, send. simpl.
  set (w3 := mkWorld _ _ _).
  intros H.
  assert (In call0 (calls (snd (_internal_check_sms P oc number limit w3)))) as H'.
  { by destruct (_internal_check_sms P oc number limit w3) as [[r|e] w4]. }
  apply _internal_check_sms_calls in H'. destruct H' as [H' | [c H']]; [by left |].
  right. exists c, number, limit. eauto.
Qed.

Lemma check_sms_command_calls_within_bounds_witness :
  In (MessagesList sample_client sample_phone 20)
     (calls (snd (check_sms_command owning 7 [sample_phone; u "20"] sample_world))) /\
  (In (MessagesList sample_client sample_phone 20) (calls sample_world) \/
   is_probe (MessagesList sample_client sample_phone 20) \/
   exists c number limit,
     head [sample_phone; u "20"] = Some number /\
     startswith number (u "+") = true /\ 1 <= limit <= 20 /\
     (MessagesList sample_client sample_phone 20 = IncomingList c (Some number) 1 \/
      MessagesList sample_client sample_phone 20 = MessagesList c number limit)).
Proof.
  assert (In (MessagesList sample_client sample_phone 20)
            (calls (snd (check_sms_command owning 7 [sample_phone; u "20"]
                           sample_world)))) as H.
  { vm_compute. tauto. }
  split; [exact H |].
  exact (check_sms_command_calls_within_bounds owning 7 [sample_phone; u "20"]
           sample_world _ H).
Defined.

(** X12.  Whatever its arguments, the store and the answers of Twilio,
    /release_number adds to the calls only the probes of the resolver, the
    lookup of its single argument, and a deletion; the argument then
    starts with "+". *)
Theorem release_number_command_calls (P : Provider) (chat_id : Z)
    (args : list pystr) (w : World) (call : ProviderCall) :
  In call (calls (snd (release_number_command P chat_id args w))) ->
  In call (calls w) \/ is_probe call \/
  exists c number,
    args = [number] /\ startswith number (u "+") = true /\
    (call = IncomingList c (Some number) 1 \/
     exists number_sid, call = IncomingDelete c number_sid).
Proof.
  revert call.
  apply (gated_command_calls P (release_number_body P)
           (fun _ args client =>
              match args with
              | [phone_number_to_release] =>
                  if negb (startswith phone_number_to_release (u "+"))
                  then reply_text invalid_phone_format
                  else
                    reply_text (u "⏳ Attempting to release `" ++
                                phone_number_to_release ++ u "`...") ;;;
                    result_message <-
                      _internal_release_number P client phone_number_to_release ;;
                    send (ReplyText result_message None)
              | _ => reply_text release_usage
              end)
           (fun call =>
              exists c number,
                args = [number] /\ startswith number (u "+") = true /\
                (call = IncomingList c (Some number) 1 \/
                 exists number_sid, call = IncomingDelete c number_sid)));
    [reflexivity |].
  intros oc w2 call0.
  destruct args as [|number [|? ?]]; [by left | | by left].
  destruct (startswith number (u "+")) eqn:Hplus; simpl; [| by left].
  unfold reply_text. unfold bind, send. simpl.
  set (w3 := mkWorld _ _ _).
  intros H.
  assert (In call0 (calls (snd (_internal_release_number P oc number w3)))) as H'.
  { by destruct (_internal_release_number P oc number w3) as [[r|e] w4]. }
  apply _internal_release_number_calls in H'.
  destruct H' as [H' | [c H']]; [by left |].
  right. exists c, number. eauto.
Qed.

Lemma release_number_command_calls_witness :
  In (IncomingDelete sample_client (u "PN1"))
     (calls (snd (release_number_command owning 7 [sample_phone] sample_world))) /\
  (In (IncomingDelete sample_client (u "PN1")) (calls sample_world) \/
   is_probe (IncomingDelete sample_client (u "PN1")) \/
   exists c number,
     [sample_phone] = [number] /\ startswith number (u "+") = true /\
     (IncomingDelete sample_client (u "PN1") = IncomingList c (Some number) 1 \/
      exists number_sid,
        IncomingDelete sample_client (u "PN1") = IncomingDelete c number_sid)).
Proof.
  assert (In (IncomingDelete sample_client (u "PN1"))
            (calls (snd (release_number_command owning 7 [sample_phone]
                           sample_world)))) as H.
  { vm_compute. tauto. }
  split; [exact H |].
  exact (release_number_command_calls owning 7 [sample_phone] sample_world _ H).
Defined.

(** ** The arguments of the search *)

Lemma is_sentinel_truthy (s : pystr) : is_sentinel s = true -> truthy s = true.
Proof. by destruct s. Qed.

Lemma _normalize_search_arg_sentinel (s : pystr) :
  is_sentinel s = true -> _normalize_search_arg (Some s) = None.
Proof.
  intros H. unfold _normalize_search_arg. fold (is_sentinel s).
  by rewrite (is_sentinel_truthy s H), H.
Qed.

Lemma _normalize_search_arg_other (s : pystr) :
  is_sentinel s = false -> _normalize_search_arg (Some s) = Some s.
Proof.
  intros H. unfold _normalize_search_arg. fold (is_sentinel s).
  by rewrite H, andb_false_r.
Qed.

Lemma lower_upper (s : pystr) : lower (upper s) = lower s.
Proof.
  unfold lower, upper. rewrite map_map. apply map_ext. intros c.
  unfold lower_char, upper_char.
  destruct ((97 <=? c)%N && (c <=? 122)%N) eqn:H; [| done].
  apply andb_true_iff in H as [H1 H2].
  apply N.leb_le in H1, H2.
  assert ((65 <=? c - 32)%N && (c - 32 <=? 90)%N = true) as ->.
  { apply andb_true_iff. split; apply N.leb_le; lia. }
  assert ((65 <=? c)%N && (c <=? 90)%N = false) as ->.
  { apply andb_false_iff. right. apply N.leb_gt. lia. }
  lia.
Qed.


Lemma is_sentinel_chars (t : pystr) :
  is_sentinel t = true -> forallb (fun x => sentinel_char (lower_char x)) t = true.
Proof.
  intros H.
  assert (forallb sentinel_char (lower t) = true) as Hl.
  { unfold is_sentinel, str_in, str_eqb in H. cbn [existsb] in H.
    rewrite !orb_true_iff, !bool_decide_eq_true in H.
    destruct H as [-> | [-> | [-> | H]]]; [reflexivity .. | discriminate H]. }
  unfold lower in Hl. clear H. induction t as [|x t IH]; [done |].
  simpl in *. apply andb_true_iff in Hl as [Hx Ht]. by rewrite Hx, IH.
Qed.

Lemma ascii_upper_table :
  forallb (fun n => bool_decide (str_upper_char (N.of_nat n) = [upper_char (N.of_nat n)]))
          (seq 0 128) = true.
Proof. vm_compute. reflexivity. Qed.

Lemma str_upper_char_ascii (c : N) :
  (c < 128)%N -> str_upper_char c = [upper_char c].
Proof.
  intros Hc. pose proof ascii_upper_table as H.
  rewrite forallb_forall in H.
  specialize (H (N.to_nat c)). rewrite N2Nat.id in H.
  apply bool_decide_eq_true in H; [done |].
  apply in_seq. lia.
Qed.

Lemma special_images_not_sentinel :
  forallb (fun e : N * list N =>
             existsb (fun x => negb (sentinel_char (lower_char x))) (snd e))
          upper_special = true.
Proof. vm_compute. reflexivity. Qed.

Lemma runs_images_not_sentinel :
  forallb (fun r : N * N * N * Z =>
             let '(first, last, _, offset) := r in
             (last <? 128)%N || (111 <? Z.of_N first + offset) ||
             ((first =? last)%N &&
              negb (sentinel_char (lower_char (Z.to_N (Z.of_N first + offset))))))
          upper_runs = true.
Proof. vm_compute. reflexivity. Qed.

Lemma sentinel_char_small (x : N) : sentinel_char x = true -> (x <= 111)%N.
Proof.
  unfold sentinel_char. cbn [existsb]. rewrite !orb_true_iff, !N.eqb_eq. lia.
Qed.

Lemma lower_char_large (x : N) : (90 < x)%N -> lower_char x = x.
Proof.
  intros H. unfold lower_char.
  destruct (65 <=? x)%N; simpl; [| done].
  destruct (x <=? 90)%N eqn:E; [apply N.leb_le in E; lia | done].
Qed.

Lemma str_upper_char_not_sentinel (c : N) :
  (128 <= c)%N ->
  existsb (fun x => negb (sentinel_char (lower_char x))) (str_upper_char c) = true.
Proof.
  intros Hc. unfold str_upper_char.
  destruct (find _ upper_special) as [[k image]|] eqn:Hs.
  - apply find_some in Hs as [Hin _].
    pose proof special_images_not_sentinel as H. rewrite forallb_forall in H.
    exact (H _ Hin).
  - destruct (find (in_run c) upper_runs) as [[[[first last] step] offset]|] eqn:Hr.
    + apply find_some in Hr as [Hin Hrun].
      pose proof runs_images_not_sentinel as H. rewrite forallb_forall in H.
      specialize (H _ Hin). simpl in H, Hrun.
      rewrite !andb_true_iff in Hrun. destruct Hrun as [[H1 H2] _].
      apply N.leb_le in H1, H2.
      rewrite !orb_true_iff in H. cbn [existsb]. rewrite orb_false_r.
      destruct H as [[H | H] | H].
      * apply N.ltb_lt in H. lia.
      * apply Z.ltb_lt in H.
        assert (111 < Z.to_N (Z.of_N c + offset))%N as Hbig by lia.
        rewrite lower_char_large by lia.
        destruct (sentinel_char _) eqn:E; [| done].
        apply sentinel_char_small in E. lia.
      * apply andb_true_iff in H as [E H]. apply N.eqb_eq in E.
        assert (c = first) as -> by lia. exact H.
    + cbn [existsb]. rewrite orb_false_r, lower_char_large by lia.
      destruct (sentinel_char c) eqn:E; [| done].
      apply sentinel_char_small in E. lia.
Qed.

Lemma is_sentinel_str_upper (s : pystr) :
  is_sentinel (str_upper s) = is_sentinel s.
Proof.
  destruct (forallb (fun c => (c <? 128)%N) s) eqn:Hascii.
  - assert (str_upper s = upper s) as ->.
    { induction s as [|c s IH]; [done |].
      simpl in Hascii. apply andb_true_iff in Hascii as [Hc Hs].
      apply N.ltb_lt in Hc. simpl.
      by rewrite (str_upper_char_ascii c Hc), (IH Hs). }
    unfold is_sentinel. by rewrite lower_upper.
  - assert (exists c, In c s /\ (128 <= c)%N) as (c & Hin & Hc).
    { induction s as [|c s IH]; [done |].
      simpl in Hascii. apply andb_false_iff in Hascii as [Hc | Hs].
      - exists c. split; [by left |]. apply N.ltb_ge in Hc. lia.
      - destruct (IH Hs) as (c' & Hin & Hc'). exists c'. split; [by right | done]. }
    assert (is_sentinel s = false) as ->.
    { destruct (is_sentinel s) eqn:E; [| done].
      apply is_sentinel_chars in E. rewrite forallb_forall in E.
      specialize (E c Hin). rewrite lower_char_large in E by lia.
      apply sentinel_char_small in E. lia. }
    destruct (is_sentinel (str_upper s)) eqn:E; [| done].
    apply is_sentinel_chars in E. rewrite forallb_forall in E.
    pose proof (str_upper_char_not_sentinel c Hc) as Hx.
    apply existsb_exists in Hx as (x & Hx & Hbad).
    assert (In x (str_upper s)) as Hxs.
    { unfold str_upper. apply in_flat_map. eauto. }
    rewrite (E x Hxs) in Hbad. discriminate Hbad.
Qed.

(** X14.  [_normalize_search_arg] maps to [None] exactly the texts "none", "_"
    and "-" in any case of the letters (and [None]), and returns every
    other argument as it is; normalising twice is normalising once.  The
    upper case of a text, by [upper] or by [str.upper], is read as the
    text is. *)
Theorem _normalize_search_arg_spec (x : option pystr) (s : pystr) :
  (_normalize_search_arg (Some s) = None <-> is_sentinel s = true) /\
  (_normalize_search_arg x = None \/ _normalize_search_arg x = x) /\
  _normalize_search_arg (_normalize_search_arg x) = _normalize_search_arg x /\
  is_sentinel (upper s) = is_sentinel s /\
  is_sentinel (u "NONE") = true /\ is_sentinel (u "_") = true /\
  is_sentinel (u "-") = true /\ is_sentinel (u "415") = false /\
  is_sentinel (str_upper s) = is_sentinel s.
Proof.
  split; [| split; [| split; [| split]]].
  - split.
    + destruct (is_sentinel s) eqn:H; [done |].
      by rewrite _normalize_search_arg_other.
    + apply _normalize_search_arg_sentinel.
  - destruct x as [t|]; [| by left].
    destruct (is_sentinel t) eqn:H.
    + left. by apply _normalize_search_arg_sentinel.
    + right. by apply _normalize_search_arg_other.
  - destruct x as [t|]; [| done].
    destruct (is_sentinel t) eqn:H.
    + by rewrite _normalize_search_arg_sentinel.
    + by rewrite !_normalize_search_arg_other.
  - unfold is_sentinel. by rewrite lower_upper.
  - do 4 (split; [reflexivity |]). apply is_sentinel_str_upper.
Qed.

(** X15.  A search whose three optional arguments are all "none", "_" or "-",
    in any case of the letters, runs as the search with the country
    alone. *)
Theorem search_with_sentinels_is_search_without (P : Provider) (chat_id : Z)
    (country a b c : pystr) (w : World) :
  is_sentinel a = true -> is_sentinel b = true -> is_sentinel c = true ->
  search_available_numbers_command P chat_id [country; a; b; c] w =
    search_available_numbers_command P chat_id [country] w.
Proof.
  intros Ha Hb Hc.
  unfold search_available_numbers_command, require_twilio_config,
    search_available_numbers_body.
  change ([country; a; b; c] !! 1%nat) with (Some a).
  change ([country; a; b; c] !! 2%nat) with (Some b).
  change ([country; a; b; c] !! 3%nat) with (Some c).
  change ([country] !! 1%nat) with (@None pystr).
  change ([country] !! 2%nat) with (@None pystr).
  change ([country] !! 3%nat) with (@None pystr).
  rewrite !_normalize_search_arg_sentinel by done.
  reflexivity.
Qed.

Lemma search_with_sentinels_is_search_without_witness :
  search_available_numbers_command accepting 7 [u "us"; u "None"; u "_"; u "-"]
    sample_world =
  search_available_numbers_command accepting 7 [u "us"] sample_world.
Proof.
  apply (search_with_sentinels_is_search_without accepting 7 (u "us") (u "None")
           (u "_") (u "-") sample_world); reflexivity.
Defined.

Lemma _internal_search_numbers_calls (P : Provider) (client : option Client)
    (country : pystr) (area pattern zip : option pystr) (w : World)
    (call : ProviderCall) :
  In call (calls (snd (_internal_search_numbers P client country area pattern zip w))) ->
  In call (calls w) \/
  exists c, call = AvailableLocalList c country (search_params_of area pattern zip).
Proof.
  unfold _internal_search_numbers. unfold_monad.
  destruct client as [c|]; simpl; [| by left].
  destruct (on_search P (calls w) c country _) as [[|n0 l]|[e|]]; simpl.
  all: rewrite ?in_app_iff; simpl; intros [H | [H | []]]; [by left |];
    subst; eauto.
Qed.

Lemma normalized_filter (x : option pystr) (s : pystr) :
  (if truthy_opt (_normalize_search_arg x) then _normalize_search_arg x else None)
    = Some s ->
  x = Some s /\ truthy s = true /\ is_sentinel s = false.
Proof.
  destruct x as [t|]; [| done].
  destruct (is_sentinel t) eqn:H.
  - by rewrite _normalize_search_arg_sentinel.
  - rewrite _normalize_search_arg_other by done. simpl.
    destruct (truthy t) eqn:Ht; [| done]. by intros [= ->].
Qed.

Lemma body_after_resolver_calls (P : Provider) (k : option Client -> M unit)
    (Q : ProviderCall -> Prop) (chat_id : Z) (w : World) :
  (forall oc w2 call,
     In call (calls (snd (k oc w2))) -> In call (calls w2) \/ Q call) ->
  forall call,
    In call (calls (snd (bind (get_twilio_client P chat_id) k w))) ->
    In call (calls w) \/ is_probe call \/ Q call.
Proof.
  intros Hk call. unfold bind.
  destruct (get_twilio_client_only_probes P chat_id w) as (l & Hl & Hp & _).
  rewrite List.Forall_forall in Hp.
  assert (In call (calls w ++ l) -> In call (calls w) \/ is_probe call \/ Q call)
    as Hold.
  { rewrite in_app_iff. intros [H|H]; eauto. }
  destruct (get_twilio_client P chat_id w) as [[oc|e] w2]; simpl in Hl;
    rewrite <- Hl in Hold; [| by apply Hold].
  intros H. apply Hk in H. destruct H as [H | H]; eauto.
Qed.

(** X16.  Whatever its arguments, the store and the answers of Twilio,
    /search_numbers adds to the calls only the probes of the resolver and
    one search: for the upper case of the first argument ([str.upper]), with
    the limit 5, and
    with no filter that is empty or one of "none", "_" and "-"; a filter
    that is sent is the argument at its position. *)
Theorem search_command_calls (P : Provider) (chat_id : Z) (args : list pystr)
    (w : World) (call : ProviderCall) :
  In call (calls (snd (search_available_numbers_command P chat_id args w))) ->
  In call (calls w) \/ is_probe call \/
  exists c arg0 params,
    call = AvailableLocalList c (str_upper arg0) params /\
    head args = Some arg0 /\ limit params = 5 /\
    (forall s, area_code params = Some s ->
       args !! 1%nat = Some s /\ truthy s = true /\ is_sentinel s = false) /\
    (forall s, contains params = Some s ->
       args !! 2%nat = Some s /\ truthy s = true /\ is_sentinel s = false) /\
    (forall s, in_postal_code params = Some s ->
       args !! 3%nat = Some s /\ truthy s = true /\ is_sentinel s = false).
Proof.
  unfold search_available_numbers_command, require_twilio_config.
  intros H.
  apply (body_after_resolver_calls P _
           (fun call => In call (calls w) \/ is_probe call \/
              exists c arg0 params,
                call = AvailableLocalList c (str_upper arg0) params /\
                head args = Some arg0 /\ limit params = 5 /\
                (forall s, area_code params = Some s ->
                   args !! 1%nat = Some s /\ truthy s = true /\ is_sentinel s = false) /\
                (forall s, contains params = Some s ->
                   args !! 2%nat = Some s /\ truthy s = true /\ is_sentinel s = false) /\
                (forall s, in_postal_code params = Some s ->
                   args !! 3%nat = Some s /\ truthy s = true /\ is_sentinel s = false))
           chat_id w) in H; [tauto |].
  clear H call. intros oc0 w1 call.
  destruct oc0 as [c0|]; [| simpl; by left].
  unfold search_available_numbers_body. intros H.
  apply (body_after_resolver_calls P _
           (fun call =>
              exists c arg0 params,
                call = AvailableLocalList c (str_upper arg0) params /\
                head args = Some arg0 /\ limit params = 5 /\
                (forall s, area_code params = Some s ->
                   args !! 1%nat = Some s /\ truthy s = true /\ is_sentinel s = false) /\
                (forall s, contains params = Some s ->
                   args !! 2%nat = Some s /\ truthy s = true /\ is_sentinel s = false) /\
                (forall s, in_postal_code params = Some s ->
                   args !! 3%nat = Some s /\ truthy s = true /\ is_sentinel s = false))
           chat_id w1) in H.
  - destruct H as [H | [H | H]]; [by left | right; by right; left | right; by right; right].
  - clear H call. intros oc w2 call.
    destruct args as [|arg0 rest]; [by left |].
    unfold reply_text. unfold bind, send. simpl.
    set (w3 := mkWorld _ _ _).
    intros H.
    assert (In call (calls (snd (_internal_search_numbers P oc (str_upper arg0)
                                   (_normalize_search_arg (rest !! 0%nat))
                                   (_normalize_search_arg (rest !! 1%nat))
                                   (_normalize_search_arg (rest !! 2%nat)) w3))))
      as H'.
    { destruct (_internal_search_numbers P oc (str_upper arg0) _ _ _ w3)
        as [[[em nums]|e] w4]; [| done].
      destruct (truthy_opt em); [done |].
      by destruct nums as [[|? ?]|]. }
    apply _internal_search_numbers_calls in H'.
    destruct H' as [H' | [c ->]]; [by left |].
    right. exists c, arg0, (search_params_of (_normalize_search_arg (rest !! 0%nat))
                              (_normalize_search_arg (rest !! 1%nat))
                              (_normalize_search_arg (rest !! 2%nat))).
    do 3 (split; [reflexivity |]).
    split; [| split]; simpl; intros s Hs; by apply normalized_filter in Hs.
Qed.

Lemma search_command_calls_witness :
  In (AvailableLocalList sample_client (u "US")
        (mkSearchParams 5 (Some (u "415")) None None))
     (calls (snd (search_available_numbers_command accepting 7
                    [u "us"; u "415"; u "none"] sample_world))) /\
  exists c arg0 params,
    AvailableLocalList sample_client (u "US")
      (mkSearchParams 5 (Some (u "415")) None None) =
      AvailableLocalList c (str_upper arg0) params /\
    limit params = 5.
Proof.
  assert (In (AvailableLocalList sample_client (u "US")
                (mkSearchParams 5 (Some (u "415")) None None))
            (calls (snd (search_available_numbers_command accepting 7
                           [u "us"; u "415"; u "none"] sample_world)))) as H.
  { vm_compute. tauto. }
  split; [exact H |].
  destruct (search_command_calls accepting 7 [u "us"; u "415"; u "none"]
              sample_world _ H) as [[] | [[] | (c & arg0 & params & Heq & _ & Hl & _)]].
  exists c, arg0, params. by split.
Defined.

(** ** Buttons *)

Lemma startswith_app (s p q : pystr) :
  startswith s (p ++ q) = true -> startswith s p = true.
Proof.
  revert s. induction p as [|a p IH]; intros s; [done |].
  destruct s as [|b s]; simpl; [done |].
  destruct (a =? b)%N; simpl; [apply IH | done].
Qed.

(** X17.  A press whose payload starts with none of the four prefixes is
    answered and nothing else is done: no message, no call, no change of
    the store. *)
Theorem button_with_unknown_payload_is_ignored (P : Provider) (chat_id : Z)
    (data : pystr) (w : World) :
  startswith data MAIN_MENU_CALLBACK_PREFIX = false ->
  startswith data BUY_CALLBACK_PREFIX = false ->
  startswith data RELEASE_CALLBACK_PREFIX = false ->
  startswith data CHECKSMS_CALLBACK_PREFIX = false ->
  button_callback_handler P chat_id data w = (Done tt, told w AnswerQuery).
Proof.
  intros Hm Hb Hr Hs.
  assert (needs_client data = false) as Hn.
  { unfold needs_client, actions_requiring_client. cbn [existsb].
    rewrite Hb, Hr, Hs. cbn [orb].
    destruct (startswith data (MAIN_MENU_CALLBACK_PREFIX ++ u "my_numbers_action"))
      eqn:H; [| done].
    apply startswith_app in H. by rewrite H in Hm. }
  unfold button_callback_handler. rewrite Hn.
  unfold dispatch, route. by rewrite Hm, Hb, Hr, Hs.
Qed.

Lemma button_with_unknown_payload_is_ignored_witness :
  button_callback_handler accepting 7 (u "delete_everything") cached_world =
    (Done tt, told cached_world AnswerQuery).
Proof.
  apply (button_with_unknown_payload_is_ignored accepting 7
           (u "delete_everything") cached_world); reflexivity.
Defined.

(** X18.  A press on a buy, release or check-sms button, or on the button that
    lists the numbers, by a user without record is answered with the text
    that asks to configure first, put in place of the message of the
    button; nothing is sent to Twilio. *)
Theorem button_without_session_asks_to_configure (P : Provider) (chat_id : Z)
    (data : pystr) (w : World) :
  needs_client data = true -> store w !! chat_id = None ->
  button_callback_handler P chat_id data w =
    (Done tt,
     told (told w AnswerQuery) (EditMessageText (VStr credentials_needed))) /\
  (forall p,
     needs_client (BUY_CALLBACK_PREFIX ++ p) = true /\
     needs_client (RELEASE_CALLBACK_PREFIX ++ p) = true /\
     needs_client (CHECKSMS_CALLBACK_PREFIX ++ p) = true /\
     needs_client (MAIN_MENU_CALLBACK_PREFIX ++ u "my_numbers_action" ++ p) = true).
Proof.
  intros Hn Hs. split.
  - unfold button_callback_handler. rewrite Hn.
    unfold bind at 1. unfold send at 1.
    set (w1 := mkWorld _ _ _).
    unfold bind. by rewrite (get_twilio_client_absent P chat_id w1).
  - intros p. repeat apply conj; reflexivity.
Qed.

Lemma button_without_session_asks_to_configure_witness :
  button_callback_handler accepting 7 (u "buy_+15551230000") empty_world =
    (Done tt,
     told (told empty_world AnswerQuery)
          (EditMessageText (VStr credentials_needed))).
Proof.
  apply (button_without_session_asks_to_configure accepting 7
           (u "buy_+15551230000") empty_world); reflexivity.
Defined.

(** X19.  The guide, help and owner buttons of the menu need no credentials:
    for every user and every store, the press is answered, the message of
    the button is replaced by the text of the guide, and nothing is sent to
    Twilio. *)
Theorem menu_guides_need_no_client (P : Provider) (chat_id : Z) (w : World) :
  let shows text :=
    (Done tt, told (told w AnswerQuery) (EditMessageText (VStr text))) in
  button_callback_handler P chat_id (u "menu_search_guide") w = shows search_guide /\
  button_callback_handler P chat_id (u "menu_configure_guide") w =
    shows configure_guide /\
  button_callback_handler P chat_id (u "menu_help_overview") w = shows help_overview /\
  button_callback_handler P chat_id (u "menu_owner_info") w = shows OWNER_DETAILS_TEXT.
Proof. repeat apply conj; reflexivity. Qed.

Lemma button_past_gate (P : Provider) (chat_id : Z) (data : pystr)
    (w w1 : World) (c : Client) :
  needs_client data = true ->
  get_twilio_client P chat_id (told w AnswerQuery) = (Done (Some c), w1) ->
  button_callback_handler P chat_id data w = dispatch P (Some c) data w1.
Proof.
  intros Hn H. unfold button_callback_handler. rewrite Hn.
  unfold bind at 1. unfold send at 1. fold (told w AnswerQuery).
  unfold bind at 1. by rewrite H.
Qed.

(** X20.  Past the gate, a buy button buys the text after its prefix, a release
    button releases it, and a check-sms button lists the last 5 messages
    sent to it, each with the handle the resolver returned. *)
Theorem buttons_act_on_their_payload (P : Provider) (chat_id : Z) (p : pystr)
    (w w1 : World) (c : Client) :
  get_twilio_client P chat_id (told w AnswerQuery) = (Done (Some c), w1) ->
  button_callback_handler P chat_id (BUY_CALLBACK_PREFIX ++ p) w =
    (edit_message_text (u "🛒 Processing purchase for `" ++ p ++ u "`...") ;;;
     result_message <- _internal_buy_number P (Some c) p ;;
     reply_text result_message) w1 /\
  button_callback_handler P chat_id (RELEASE_CALLBACK_PREFIX ++ p) w =
    (edit_message_text (u "⏳ Processing release for `" ++ p ++ u "`...") ;;;
     result_message <- _internal_release_number P (Some c) p ;;
     send (ReplyText result_message None)) w1 /\
  button_callback_handler P chat_id (CHECKSMS_CALLBACK_PREFIX ++ p) w =
    (edit_message_text (u "📨 Fetching last " ++ u "5" ++ u " SMS for `" ++ p ++ u "`...") ;;;
     result_message <- _internal_check_sms P (Some c) p 5 ;;
     send (ReplyText result_message None)) w1.
Proof.
  intros H.
  rewrite !(button_past_gate P chat_id _ w w1 c) by (done || reflexivity).
  repeat apply conj; reflexivity.
Qed.

Lemma buttons_act_on_their_payload_witness :
  button_callback_handler accepting 7 (BUY_CALLBACK_PREFIX ++ sample_phone)
    cached_world =
    (edit_message_text (u "🛒 Processing purchase for `" ++ sample_phone ++ u "`...") ;;;
     result_message <- _internal_buy_number accepting (Some sample_client) sample_phone ;;
     reply_text result_message)
      (called (told cached_world AnswerQuery) (AccountFetch sample_client sample_sid)).
Proof.
  apply (buttons_act_on_their_payload accepting 7 sample_phone cached_world
           (called (told cached_world AnswerQuery)
                   (AccountFetch sample_client sample_sid))
           sample_client).
  vm_compute. reflexivity.
Defined.


(** ** Every command probes twice *)

Lemma grows_ret {A} (a : A) : grows (ret a).
Proof. intros w. exists []. by rewrite app_nil_r. Qed.

Lemma grows_raise {A} (e : Exn) : grows (@raise A e).
Proof. intros w. exists []. by rewrite app_nil_r. Qed.

Lemma grows_send (o : Outgoing) : grows (send o).
Proof. intros w. exists []. by rewrite app_nil_r. Qed.

Lemma grows_request {A} (c : ProviderCall) (answer : list ProviderCall -> Answer A) :
  grows (request c answer).
Proof. intros w. exists [c]. unfold request. by destruct (answer (calls w)). Qed.

Lemma grows_bind {A B} (m : M A) (k : A -> M B) :
  grows m -> (forall a, grows (k a)) -> grows (bind m k).
Proof.
  intros Hm Hk w. unfold bind. destruct (Hm w) as [l1 Hl1].
  destruct (m w) as [[a|e] w1]; simpl in Hl1.
  - destruct (Hk a w1) as [l2 Hl2]. exists (l1 ++ l2).
    by rewrite Hl2, Hl1, app_assoc.
  - by exists l1.
Qed.

Lemma grows_try_except {A} (body : M A) (on_rest : RestError -> M A)
    (on_exc : M A) :
  grows body -> (forall e, grows (on_rest e)) -> grows on_exc ->
  grows (try_except body on_rest on_exc).
Proof.
  intros Hb Hr He w. unfold try_except. destruct (Hb w) as [l1 Hl1].
  destruct (body w) as [[a|[e|]] w1]; simpl in Hl1.
  - by exists l1.
  - destruct (Hr e w1) as [l2 Hl2]. exists (l1 ++ l2).
    by rewrite Hl2, Hl1, app_assoc.
  - destruct (He w1) as [l2 Hl2]. exists (l1 ++ l2).
    by rewrite Hl2, Hl1, app_assoc.
Qed.

Lemma grows_handle (oc : option Client) : grows (handle oc).
Proof. destruct oc; [apply grows_ret | apply grows_raise]. Qed.

Lemma grows_get_twilio_client (P : Provider) (chat_id : Z) :
  grows (get_twilio_client P chat_id).
Proof.
  intros w. destruct (get_twilio_client_only_probes P chat_id w) as (l & Hl & _).
  by exists l.
Qed.

Ltac grows_step :=
  first
    [ apply grows_ret | apply grows_raise | apply grows_send | apply grows_request
    | apply grows_handle | apply grows_get_twilio_client
    | apply grows_bind; [| intros ?]
    | apply grows_try_except; [| intros ? |]
    | match goal with
      | |- grows (match ?x with _ => _ end) => destruct x
      | |- grows (if ?b then _ else _) => destruct b
      | |- grows (let '(_, _) := ?x in _) => destruct x
      end
    | progress unfold reply_text, edit_message_text, details_get ].

Lemma bodies_grow (P : Provider) (chat_id : Z) (args : list pystr) :
  grows (search_available_numbers_body P chat_id args) /\
  grows (buy_number_body P chat_id args) /\
  grows (list_my_numbers_body P chat_id args) /\
  grows (release_number_body P chat_id args) /\
  grows (check_sms_body P chat_id args).
Proof.
  unfold search_available_numbers_body, buy_number_body, list_my_numbers_body,
    release_number_body, check_sms_body, check_sms_fetch,
    _internal_search_numbers, _internal_buy_number,
    _internal_list_my_numbers, _internal_release_number, _internal_check_sms.
  repeat apply conj; repeat grows_step.
Qed.

Lemma bind_extends_first {A B} (m : M A) (k : A -> M B) (w : World) :
  (forall a, grows (k a)) ->
  exists more, calls (snd (bind m k w)) = calls (snd (m w)) ++ more.
Proof.
  intros Hk. unfold bind. destruct (m w) as [[a|e] w1]; simpl.
  - apply Hk.
  - exists []. by rewrite app_nil_r.
Qed.

Lemma bodies_extend_resolver (P : Provider) (chat_id : Z) (args : list pystr)
    (w : World) :
  let after body :=
    exists more,
      calls (snd (body w)) = calls (snd (get_twilio_client P chat_id w)) ++ more in
  after (search_available_numbers_body P chat_id args) /\
  after (buy_number_body P chat_id args) /\
  after (list_my_numbers_body P chat_id args) /\
  after (release_number_body P chat_id args) /\
  after (check_sms_body P chat_id args).
Proof.
  unfold search_available_numbers_body, buy_number_body, list_my_numbers_body,
    release_number_body, check_sms_body, check_sms_fetch,
    _internal_search_numbers, _internal_buy_number,
    _internal_list_my_numbers, _internal_release_number, _internal_check_sms.
  repeat apply conj; apply bind_extends_first; intros ?; repeat grows_step.
Qed.

(** X22.  A user with a cached handle that Twilio accepts pays two probes on
    every command that needs a client, before anything else is sent to
    Twilio and whatever the arguments are: one in the decorator and one in
    the function under it. *)
Theorem commands_probe_twice (P : Provider) (chat_id : Z) (args : list pystr)
    (w : World) (s : Session) (c : Client) :
  store w !! chat_id = Some s -> client s = Some c ->
  on_fetch P (calls w) c (sid s) = Ok tt ->
  on_fetch P (calls w ++ [AccountFetch c (sid s)]) c (sid s) = Ok tt ->
  let twice (r : Outcome unit * World) :=
    exists more,
      calls (snd r) =
        calls w ++ [AccountFetch c (sid s); AccountFetch c (sid s)] ++ more in
  twice (search_available_numbers_command P chat_id args w) /\
  twice (buy_number_command P chat_id args w) /\
  twice (list_my_numbers_command P chat_id args w) /\
  twice (release_number_command P chat_id args w) /\
  twice (check_sms_command P chat_id args w).
Proof.
  intros Hs Hc Hf1 Hf2 twice. unfold twice.
  set (w1 := called w (AccountFetch c (sid s))).
  assert (get_twilio_client P chat_id w = (Done (Some c), w1)) as H1.
  { by rewrite get_twilio_client_unfold, (probe_cached_ok _ _ _ s c). }
  assert (get_twilio_client P chat_id w1 =
            (Done (Some c), called w1 (AccountFetch c (sid s)))) as H2.
  { by rewrite get_twilio_client_unfold, (probe_cached_ok _ _ _ s c). }
  destruct (bodies_extend_resolver P chat_id args w1) as (B1 & B2 & B3 & B4 & B5).
  rewrite H2 in B1, B2, B3, B4, B5. simpl in B1, B2, B3, B4, B5.
  unfold search_available_numbers_command, buy_number_command,
    list_my_numbers_command, release_number_command, check_sms_command,
    require_twilio_config.
  unfold bind. rewrite H1.
  repeat apply conj;
    [destruct B1 as [more B] | destruct B2 as [more B] | destruct B3 as [more B]
    | destruct B4 as [more B] | destruct B5 as [more B]];
    exists more; rewrite B; subst w1; simpl; by rewrite <- !app_assoc.
Qed.

Lemma commands_probe_twice_witness :
  exists more,
    calls (snd (buy_number_command accepting 7 [] cached_world)) =
      calls cached_world ++
      [AccountFetch sample_client sample_sid; AccountFetch sample_client sample_sid] ++
      more.
Proof.
  destruct (commands_probe_twice accepting 7 [] cached_world
              (mkSession sample_sid sample_token (Some sample_client))
              sample_client) as (_ & H & _).
  - apply lookup_singleton_eq.
  - reflexivity.
  - reflexivity.
  - reflexivity.
  - exact H.
Defined.

(** ** Arguments of the commands *)



(** X24.  For a user who passes the gate, /buy_number and /release_number with
    any number of arguments other than one reply with their usage, and
    with one argument that does not start with "+" reply with the format
    message; in both cases nothing else is done. *)
Theorem buy_and_release_argument_checks (P : Provider) (chat_id : Z)
    (args : list pystr) (number : pystr) (w w1 w2 : World) (c1 : Client)
    (oc : option Client) :
  get_twilio_client P chat_id w = (Done (Some c1), w1) ->
  get_twilio_client P chat_id w1 = (Done oc, w2) ->
  (length args <> 1%nat ->
   buy_number_command P chat_id args w =
     (Done tt, told w2 (ReplyText (VStr buy_usage) None)) /\
   release_number_command P chat_id args w =
     (Done tt, told w2 (ReplyText (VStr release_usage) None))) /\
  (startswith number (u "+") = false ->
   buy_number_command P chat_id [number] w =
     (Done tt, told w2 (ReplyText (VStr invalid_phone_format) None)) /\
   release_number_command P chat_id [number] w =
     (Done tt, told w2 (ReplyText (VStr invalid_phone_format) None))).
Proof.
  intros H1 H2.
  unfold buy_number_command, release_number_command, require_twilio_config,
    buy_number_body, release_number_body.
  unfold bind. rewrite H1, H2. split.
  - intros Hlen. by destruct args as [|? [|? ?]].
  - by intros ->.
Qed.

Lemma buy_and_release_argument_checks_witness :
  buy_number_command accepting 7 [u "5551230000"] sample_world =
    (Done tt,
     told (snd (get_twilio_client accepting 7
                  (snd (get_twilio_client accepting 7 sample_world))))
          (ReplyText (VStr invalid_phone_format) None)).
Proof.
  destruct (buy_and_release_argument_checks accepting 7 [] (u "5551230000")
              sample_world
              (snd (get_twilio_client accepting 7 sample_world))
              (snd (get_twilio_client accepting 7
                      (snd (get_twilio_client accepting 7 sample_world))))
              sample_client (Some sample_client))
    as [_ H].
  - vm_compute. reflexivity.
  - vm_compute. reflexivity.
  - apply H. reflexivity.
Defined.

(** ** After a configuration *)

(** X25.  After a configuration that Twilio refused, the user is without
    record: each of the five commands that need a client then only asks to
    configure, and sends nothing to Twilio. *)
Theorem refused_configure_then_commands_ask_to_configure (P : Provider)
    (chat_id : Z) (account_sid auth_token : pystr) (args : list pystr)
    (w : World) (e : RestError) :
  startswith account_sid (u "AC") = true -> len account_sid = 34 ->
  truthy auth_token = true ->
  on_fetch P (calls w) (mkClient account_sid auth_token) account_sid =
    Fails (TwilioRestException e) ->
  let w' := snd (configure_twilio P chat_id [account_sid; auth_token] w) in
  let asked := (Done tt, told w' (ReplyText (VStr credentials_needed) None)) in
  search_available_numbers_command P chat_id args w' = asked /\
  buy_number_command P chat_id args w' = asked /\
  list_my_numbers_command P chat_id args w' = asked /\
  release_number_command P chat_id args w' = asked /\
  check_sms_command P chat_id args w' = asked.
Proof.
  intros Hprefix Hlen Htok Hf w' asked.
  assert (truthy account_sid = true) as Hsid.
  { destruct account_sid; [discriminate Hprefix | done]. }
  assert (store w' !! chat_id = None) as Hnone.
  { unfold w', configure_twilio. rewrite Hprefix, Hlen. simpl.
    unfold bind at 1. unfold set_store at 1.
    set (w1 := mkWorld _ _ _).
    assert (store w1 !! chat_id = Some (mkSession account_sid auth_token None))
      as Hs by apply lookup_insert_eq.
    unfold bind. rewrite get_twilio_client_unfold.
    rewrite (probe_cached_no_handle _ _ _ _ Hs) by done.
    rewrite (reconstruct_fault _ _ _ _ e Hs); simpl; [| by rewrite Hsid, Htok | done].
    apply lookup_delete_eq. }
  repeat apply conj; by apply require_twilio_config_absent.
Qed.

Lemma refused_configure_then_commands_ask_to_configure_witness :
  buy_number_command refusing 7 [sample_phone]
    (snd (configure_twilio refusing 7 [sample_sid; sample_token] empty_world)) =
    (Done tt,
     told (snd (configure_twilio refusing 7 [sample_sid; sample_token] empty_world))
          (ReplyText (VStr credentials_needed) None)).
Proof.
  destruct (refused_configure_then_commands_ask_to_configure refusing 7
              sample_sid sample_token [sample_phone] empty_world sample_fault)
    as (_ & H & _).
  - reflexivity.
  - reflexivity.
  - reflexivity.
  - reflexivity.
  - exact H.
Defined.

(** ** The commands of the administrator *)

Lemma is_admin_iff (chat_id : Z) :
  bool_decide (chat_id ∈ ADMIN_CHAT_IDS) = true <-> chat_id = 123456789.
Proof.
  unfold ADMIN_CHAT_IDS. rewrite bool_decide_eq_true. apply list_elem_of_singleton.
Qed.

(** X26.  /admin_stats answers any chat other than the administrator's with the
    refusal and reads nothing; to the administrator it reports the number
    of records in the store.  /help shows the line about /admin_stats to
    the administrator alone. *)
Theorem admin_commands_are_gated (chat_id : Z) (args : list pystr) (w : World) :
  (chat_id <> 123456789 ->
   admin_stats_command chat_id args w =
     (Done tt, told w (ReplyText (VStr admins_only) None)) /\
   help_command chat_id args w =
     (Done tt, told w (ReplyText (VStr help_text) None))) /\
  admin_stats_command 123456789 args w =
    (Done tt,
     told w (ReplyText
               (VStr (u "📊 *Admin Statistics*" ++ nl ++ nl ++
                      u "Active Twilio configurations in this session: *" ++
                      str_of_int (Z.of_nat (size (store w))) ++ u "*")) None)) /\
  help_command 123456789 args w =
    (Done tt, told w (ReplyText (VStr (help_text ++ help_admin_line)) None)).
Proof.
  split; [| split; reflexivity].
  intros Hne. unfold admin_stats_command, admin_only, help_command.
  assert (bool_decide (chat_id ∈ ADMIN_CHAT_IDS) = false) as ->; [| done].
  apply not_true_is_false. by rewrite is_admin_iff.
Qed.

Lemma admin_commands_are_gated_witness :
  admin_stats_command 7 [] sample_world =
    (Done tt, told sample_world (ReplyText (VStr admins_only) None)).
Proof.
  destruct (admin_commands_are_gated 7 [] sample_world) as [H _].
  apply H. discriminate.
Defined.

(** X27.  The number that /admin_stats reports follows the configurations: a
    pair that Twilio accepts, from a user without record, adds one to it;
    and a pair that Twilio refuses leaves the count of the records of the
    other users. *)
Theorem admin_stats_counts_configurations (P : Provider) (chat_id : Z)
    (account_sid auth_token : pystr) (w : World) :
  startswith account_sid (u "AC") = true -> len account_sid = 34 ->
  truthy auth_token = true ->
  let w' := snd (configure_twilio P chat_id [account_sid; auth_token] w) in
  (store w !! chat_id = None ->
   on_fetch P (calls w) (mkClient account_sid auth_token) account_sid = Ok tt ->
   size (store w') = S (size (store w))) /\
  (forall e,
     on_fetch P (calls w) (mkClient account_sid auth_token) account_sid =
       Fails (TwilioRestException e) ->
     size (store w') = size (delete chat_id (store w))).
Proof.
  intros Hprefix Hlen Htok w'.
  assert (truthy account_sid = true) as Hsid.
  { destruct account_sid; [discriminate Hprefix | done]. }
  assert (w' =
    snd (bind (get_twilio_client P chat_id)
           (fun client =>
              match client with
              | Some _ => reply_text configure_success
              | None => reply_text authentication_failed
              end)
           (mkWorld (<[chat_id := mkSession account_sid auth_token None]> (store w))
                    (calls w) (sent w)))) as ->.
  { unfold w', configure_twilio. by rewrite Hprefix, Hlen. }
  set (w1 := mkWorld _ _ _).
  assert (store w1 !! chat_id = Some (mkSession account_sid auth_token None))
    as Hs by apply lookup_insert_eq.
  unfold bind. rewrite get_twilio_client_unfold.
  rewrite (probe_cached_no_handle _ _ _ _ Hs) by done.
  split.
  - intros Hnone Hf.
    rewrite (reconstruct_ok _ _ _ _ Hs); simpl; [| by rewrite Hsid, Htok | done].
    rewrite insert_insert_eq. by apply map_size_insert_None.
  - intros e Hf.
    rewrite (reconstruct_fault _ _ _ _ e Hs); simpl; [| by rewrite Hsid, Htok | done].
    by rewrite delete_insert_eq.
Qed.

Lemma admin_stats_counts_configurations_witness :
  size (store (snd (configure_twilio accepting 7 [sample_sid; sample_token]
                      empty_world))) = 1%nat.
Proof.
  destruct (admin_stats_counts_configurations accepting 7 sample_sid sample_token
              empty_world) as [H _].
  - reflexivity.
  - reflexivity.
  - reflexivity.
  - rewrite H; [reflexivity | apply lookup_empty | reflexivity].
Defined.

(** ** The texts of the listings *)

Lemma fold_left_app_concat {A} (f : A -> pystr) (l : list A) (start : pystr) :
  fold_left (fun text x => text ++ f x) l start = start ++ concat (map f l).
Proof.
  revert start. induction l as [|x l IH]; intros start; simpl.
  - by rewrite app_nil_r.
  - by rewrite IH, app_assoc.
Qed.

(** The text of a listing is its heading followed by one entry for each
    record, in the order in which Twilio returned them; the keyboard under
    it has one row for each record, in the same order. *)
Theorem listings_hold_every_record (owned : list IncomingNumber)
    (found : list AvailableNumber) (messages : list Message) (number : pystr)
    (limit : Z) :
  owned_text owned =
    (u "🌟 *Your Twilio Numbers:*" ++ nl ++ nl) ++ concat (map owned_entry owned) /\
  found_text found =
    (u "✅ *Found Available Numbers:*" ++ nl ++ nl) ++ concat (map found_entry found) /\
  sms_listing number limit messages =
    (u "💬 Recent SMS for *" ++ number ++ u "* (last " ++ str_of_int limit ++
     u "):" ++ nl ++ nl) ++ concat (map sms_entry messages) /\
  map (fun row : list Button => map (fun b => route (snd b)) row)
      (map owned_buttons owned) =
    map (fun n => [ToRelease (i_phone_number n); ToCheckSms (i_phone_number n)]) owned /\
  map (fun row : list Button => map (fun b => route (snd b)) row)
      (map found_buttons found) =
    map (fun n => [ToBuy (a_phone_number n)]) found.
Proof.
  unfold owned_text, found_text, sms_listing.
  rewrite !fold_left_app_concat, !map_map.
  repeat apply conj; try reflexivity; apply map_ext; intros n; reflexivity.
Qed.

(** ** What the handlers leave in the store *)

Lemma pairs_kept_same_store (w w' : World) :
  store w' = store w -> pairs_kept w w'.
Proof. intros E k s' H. rewrite E in H. eauto. Qed.

Lemma pairs_kept_refl (w : World) : pairs_kept w w.
Proof. by apply pairs_kept_same_store. Qed.

Lemma pairs_kept_trans (w1 w2 w3 : World) :
  pairs_kept w1 w2 -> pairs_kept w2 w3 -> pairs_kept w1 w3.
Proof.
  intros H12 H23 k s3 H3.
  destruct (H23 k s3 H3) as (s2 & H2 & E1 & E2).
  destruct (H12 k s2 H2) as (s1 & H1 & E3 & E4).
  exists s1. by rewrite E1, E2.
Qed.

Lemma keeps_pairs_ret {A} (a : A) : keeps_pairs (ret a).
Proof. intros w. apply pairs_kept_refl. Qed.

Lemma keeps_pairs_raise {A} (e : Exn) : keeps_pairs (@raise A e).
Proof. intros w. apply pairs_kept_refl. Qed.

Lemma keeps_pairs_send (o : Outgoing) : keeps_pairs (send o).
Proof. intros w. by apply pairs_kept_same_store. Qed.

Lemma keeps_pairs_get_store : keeps_pairs get_store.
Proof. intros w. apply pairs_kept_refl. Qed.

Lemma keeps_pairs_request {A} (c : ProviderCall)
    (answer : list ProviderCall -> Answer A) :
  keeps_pairs (request c answer).
Proof.
  intros w. unfold request.
  destruct (answer (calls w)); by apply pairs_kept_same_store.
Qed.

Lemma keeps_pairs_handle (oc : option Client) : keeps_pairs (handle oc).
Proof. destruct oc; [apply keeps_pairs_ret | apply keeps_pairs_raise]. Qed.

Lemma keeps_pairs_bind {A B} (m : M A) (k : A -> M B) :
  keeps_pairs m -> (forall a, keeps_pairs (k a)) -> keeps_pairs (bind m k).
Proof.
  intros Hm Hk w. unfold bind. specialize (Hm w).
  destruct (m w) as [[a|e] w1]; simpl in Hm; [| done].
  eapply pairs_kept_trans; [exact Hm | apply Hk].
Qed.

Lemma keeps_pairs_try_except {A} (body : M A) (on_rest : RestError -> M A)
    (on_exc : M A) :
  keeps_pairs body -> (forall e, keeps_pairs (on_rest e)) -> keeps_pairs on_exc ->
  keeps_pairs (try_except body on_rest on_exc).
Proof.
  intros Hb Hr He w. unfold try_except. specialize (Hb w).
  destruct (body w) as [[a|[e|]] w1]; simpl in Hb; [done | |].
  - eapply pairs_kept_trans; [exact Hb | apply Hr].
  - eapply pairs_kept_trans; [exact Hb | apply He].
Qed.

Lemma keeps_pairs_get_twilio_client (P : Provider) (chat_id : Z) :
  keeps_pairs (get_twilio_client P chat_id).
Proof.
  intros w k s' H. destruct (decide (k = chat_id)) as [-> | Hne].
  - by apply (get_twilio_client_same_pair P chat_id w).
  - rewrite get_twilio_client_frame in H by done. eauto.
Qed.

Ltac keeps_pairs_step :=
  first
    [ apply keeps_pairs_ret | apply keeps_pairs_raise | apply keeps_pairs_send
    | apply keeps_pairs_request | apply keeps_pairs_handle
    | apply keeps_pairs_get_store | apply keeps_pairs_get_twilio_client
    | apply keeps_pairs_bind; [| intros ?]
    | apply keeps_pairs_try_except; [| intros ? |]
    | match goal with
      | |- keeps_pairs (match ?x with _ => _ end) => destruct x
      | |- keeps_pairs (if ?b then _ else _) => destruct b
      | |- keeps_pairs (let '(_, _) := ?x in _) => destruct x
      end
    | progress unfold reply_text, edit_message_text, details_get ].

(** X28.  The stored pairs are written by /configure alone: the five commands
    that need a client, the button handler and the commands of the
    administrator create no record, and every record they leave has the
    identifier and the secret it had before, whatever the arguments and
    the answers of Twilio. *)
Theorem only_configure_writes_credentials (P : Provider) (chat_id : Z)
    (args : list pystr) (data : pystr) :
  keeps_pairs (search_available_numbers_command P chat_id args) /\
  keeps_pairs (buy_number_command P chat_id args) /\
  keeps_pairs (list_my_numbers_command P chat_id args) /\
  keeps_pairs (release_number_command P chat_id args) /\
  keeps_pairs (check_sms_command P chat_id args) /\
  keeps_pairs (button_callback_handler P chat_id data) /\
  keeps_pairs (admin_stats_command chat_id args) /\
  keeps_pairs (help_command chat_id args).
Proof.
  unfold search_available_numbers_command, buy_number_command,
    list_my_numbers_command, release_number_command, check_sms_command,
    require_twilio_config, button_callback_handler, dispatch, my_numbers_action,
    admin_stats_command, admin_only, admin_stats_body, help_command,
    search_available_numbers_body, buy_number_body, list_my_numbers_body,
    release_number_body, check_sms_body, check_sms_fetch,
    _internal_search_numbers, _internal_buy_number,
    _internal_list_my_numbers, _internal_release_number, _internal_check_sms.
  repeat apply conj; repeat keeps_pairs_step.
Qed.

(** ** Every update is answered *)

















Lemma buy_number_command_checks_plus_witness :
  In (IncomingCreate sample_client sample_phone)
     (calls (snd (buy_number_command accepting 7 [sample_phone] sample_world))) /\
  (In (IncomingCreate sample_client sample_phone) (calls sample_world) \/
   startswith sample_phone (u "+") = true).
Proof.
  assert (In (IncomingCreate sample_client sample_phone)
            (calls (snd (buy_number_command accepting 7 [sample_phone]
                           sample_world)))) as H.
  { vm_compute. tauto. }
  split; [exact H |].
  exact (buy_number_command_checks_plus accepting 7 [sample_phone] sample_world
           sample_client sample_phone H).
Defined.
